(** * fishpond-validator: the satellite image collection script

    A shallow embedding of [scripts/data_collection.py] and the properties of
    its date-range calculator, scene selector and batch driver.

    Conventions of the embedding.
    - A Python exception is a value of [exn]; a call that may raise returns a
      [result], and [x <- c ;; k] sequences two calls, the first exception
      raised ending the computation (there is no [try] in the script).
    - Latitudes, longitudes and bounding-box coordinates are IEEE-754 binary64
      numbers, as in Python: Rocq's primitive [float] with its comparison
      [PrimFloat.ltb].
    - A pandas [Timestamp] or [Timedelta] is its count of nanoseconds, a
      signed 64-bit integer written as a [Z] with the overflow check spelled
      out; dates follow the proleptic Gregorian calendar.
    - The remote catalog, the geodesic library, the raster readers and the
      image writer are external: they are the fields of a [world] record.
    - The rescaling of the Landsat crop is a library routine of which the
      script holds only the call; [cv2_normalize] follows the specification's
      description of it, over the rationals. *)

From Stdlib Require Import ZArith List String Ascii Floats Lia Bool.
From Stdlib Require Import QArith Qminmax Lqa.
Import ListNotations.
Open Scope string_scope.
Open Scope Z_scope.

(** ** Exceptions and results *)

Inductive exn : Type :=
| AttributeError
| IndexError
| UnboundLocalError
| ValueError
| OverflowError
| OutOfBoundsDatetime
| CollaboratorError (what : string).

Inductive result (A : Type) : Type :=
| Ok (a : A)
| Raise (e : exn).

Arguments Ok {A} a.
Arguments Raise {A} e.

Definition bind {A B : Type} (c : result A) (k : A -> result B) : result B :=
  match c with
  | Ok a => k a
  | Raise e => Raise e
  end.

Notation "x <- c ;; k" := (bind c (fun x => k))
  (at level 61, c at next level, right associativity).

Fixpoint map_result {A B : Type} (f : A -> result B) (l : list A) : result (list B) :=
  match l with
  | [] => Ok []
  | a :: t => b <- f a ;; bs <- map_result f t ;; Ok (b :: bs)
  end.

(** ** The proleptic Gregorian calendar

    Day numbers are ordinals: 1 is 0001-01-01, as in Python's [datetime]. *)

Definition is_leap (y : Z) : bool :=
  (y mod 4 =? 0) && (negb (y mod 100 =? 0) || (y mod 400 =? 0)).

Definition days_before_year (y : Z) : Z :=
  let p := y - 1 in 365 * p + p / 4 - p / 100 + p / 400.

Definition days_in_month (y m : Z) : Z :=
  if m =? 2 then (if is_leap y then 29 else 28)
  else if (m =? 4) || (m =? 6) || (m =? 9) || (m =? 11) then 30 else 31.

Definition days_before_month (y m : Z) : Z :=
  let leap := if is_leap y then 1 else 0 in
  match m with
  | 1 => 0 | 2 => 31 | 3 => 59 + leap | 4 => 90 + leap | 5 => 120 + leap
  | 6 => 151 + leap | 7 => 181 + leap | 8 => 212 + leap | 9 => 243 + leap
  | 10 => 273 + leap | 11 => 304 + leap | _ => 334 + leap
  end.

Definition ymd2ord (y m d : Z) : Z :=
  days_before_year y + days_before_month y m + d.

Definition months : list Z := [1; 2; 3; 4; 5; 6; 7; 8; 9; 10; 11; 12].

(** The month and day of the month of the [n]-th day (from 0) of year [y]. *)
Fixpoint find_month (y : Z) (ms : list Z) (n : Z) : Z * Z :=
  match ms with
  | [] => (12, n + 1)
  | m :: rest =>
      if n <? days_in_month y m then (m, n + 1)
      else find_month y rest (n - days_in_month y m)
  end.

Definition ord2ymd (n : Z) : Z * Z * Z :=
  let n0 := n - 1 in
  let n400 := n0 / 146097 in let r400 := n0 mod 146097 in
  let n100 := r400 / 36524 in let r100 := r400 mod 36524 in
  let n4 := r100 / 1461 in let r4 := r100 mod 1461 in
  let n1 := r4 / 365 in let r1 := r4 mod 365 in
  let year := n400 * 400 + 1 + n100 * 100 + n4 * 4 + n1 in
  if (n1 =? 4) || (n100 =? 4) then (year - 1, 12, 31)
  else let '(m, d) := find_month year months r1 in (year, m, d).

(** A calendar date, as three numbers. *)
Record calendar_date : Type := mkdate { year : Z; month : Z; day : Z }.

Definition valid_date (d : calendar_date) : bool :=
  (1 <=? year d) && (year d <=? 9999) &&
  (1 <=? month d) && (month d <=? 12) &&
  (1 <=? day d) && (day d <=? days_in_month (year d) (month d)).

Definition ordinal (d : calendar_date) : Z := ymd2ord (year d) (month d) (day d).

Definition date_of_ordinal (n : Z) : calendar_date :=
  let '(y, m, d) := ord2ymd n in mkdate y m d.

(** ** Text: [strftime], the date layout pandas reads back, [str.lower] *)

Definition digit_char (n : Z) : ascii := ascii_of_N (48 + Z.to_N (n mod 10)).

Definition digit_value (c : ascii) : option Z :=
  let n := Z.of_N (N_of_ascii c) in
  if (48 <=? n) && (n <=? 57) then Some (n - 48) else None.

(** [strftime("%Y-%m-%d")]: four digits, two digits, two digits.  The year
    has four digits from 1000 on, and every date a pandas timestamp holds is
    later; for a smaller year the C library may print fewer digits, which
    this text does not follow. *)
Definition strftime_ymd (d : calendar_date) : string :=
  String (digit_char (year d / 1000)) (String (digit_char (year d / 100))
  (String (digit_char (year d / 10)) (String (digit_char (year d))
  (String "-" (String (digit_char (month d / 10)) (String (digit_char (month d))
  (String "-" (String (digit_char (day d / 10)) (String (digit_char (day d))
  EmptyString))))))))).

(** The text of a date in that layout, read back as three numbers. *)
Definition parse_ymd (s : string) : option calendar_date :=
  match list_ascii_of_string s with
  | [y3; y2; y1; y0; h1; m1; m0; h2; d1; d0] =>
      match digit_value y3, digit_value y2, digit_value y1, digit_value y0,
            digit_value m1, digit_value m0, digit_value d1, digit_value d0 with
      | Some a, Some b, Some c, Some e, Some f, Some g, Some h, Some i =>
          if Ascii.eqb h1 "-" && Ascii.eqb h2 "-"
          then Some (mkdate (1000 * a + 100 * b + 10 * c + e) (10 * f + g) (10 * h + i))
          else None
      | _, _, _, _, _, _, _, _ => None
      end
  | _ => None
  end.

(** [str.lower] on the ASCII letters. *)
Definition lower_char (c : ascii) : ascii :=
  let n := N_of_ascii c in
  if ((65 <=? n) && (n <=? 90))%N then ascii_of_N (n + 32) else c.

Fixpoint lower (s : string) : string :=
  match s with
  | EmptyString => EmptyString
  | String c t => String (lower_char c) (lower t)
  end.

(** [pat in s]: [pat] occurs in [s] as a run of consecutive characters. *)
Fixpoint contains (s pat : string) : bool :=
  String.prefix pat s ||
  match s with
  | EmptyString => false
  | String _ t => contains t pat
  end.

(** ** pandas timestamps (nanoseconds since 1970-01-01, 64 bits) *)

Definition ns_per_day : Z := 86400 * 1000000000.

Definition epoch_ordinal : Z := 719163.

(** The least 64-bit value is pandas' [NaT], not a time. *)
Definition in_int64 (z : Z) : bool := (- 2 ^ 63 <? z) && (z <? 2 ^ 63).

(** [pd.to_datetime] on a text in the layout [%Y-%m-%d], the only one the
    script hands it (the sample date of line 154, the column built on line
    91).  A date outside the 64-bit nanosecond range raises.  pandas reads
    other layouts too ([2022/08/31], [2022-08-31 12:00]); they are outside
    this model, which answers [ValueError] for them, and no property below
    rests on what it answers for a text that is not a date in the layout
    [%Y-%m-%d]. *)
Definition to_datetime (s : string) : result Z :=
  match parse_ymd s with
  | Some d =>
      if valid_date d then
        let ns := (ordinal d - epoch_ordinal) * ns_per_day in
        if in_int64 ns then Ok ns else Raise OutOfBoundsDatetime
      else Raise ValueError
  | None => Raise ValueError
  end.

(** The calendar date of a timestamp. *)
Definition timestamp_date (t : Z) : calendar_date :=
  date_of_ordinal (t / ns_per_day + epoch_ordinal).

(** [Timestamp.strftime("%Y-%m-%dT")]. *)
Definition strftime_ymdT (t : Z) : string := strftime_ymd (timestamp_date t) ++ "T".

(** [timestamp - timedelta(days=n)]: the interval becomes a 64-bit count of
    nanoseconds, and so does the difference.  What pandas does with an
    interval beyond 64 bits depends on its release; it is written as
    [OverflowError] here, and no property below rests on that branch. *)
Definition sub_days (t n : Z) : result Z :=
  if in_int64 (n * ns_per_day) then
    if in_int64 (t - n * ns_per_day) then Ok (t - n * ns_per_day)
    else Raise OutOfBoundsDatetime
  else Raise OverflowError.

(** [timestamp - timestamp], a [Timedelta]. *)
Definition sub_timestamps (t u : Z) : result Z :=
  if in_int64 (t - u) then Ok (t - u) else Raise OverflowError.

(** ** [get_date_range] (lines 33-41) *)

Definition get_date_range (date : string) (time_buffer_days : Z) : result string :=
  t <- to_datetime date ;;
  range_start <- sub_days t time_buffer_days ;;
  t' <- to_datetime date ;;
  Ok (strftime_ymdT range_start ++ "/" ++ strftime_ymdT t').

(** The text the specification describes for the range: two ISO-8601 dates
    joined by [/]. *)
Definition iso8601_interval (range_start range_end : calendar_date) : string :=
  (strftime_ymd range_start ++ "/" ++ strftime_ymd range_end)%string.

(** The text of the format of line 37, where a [T] follows each date. *)
Definition dateT_interval (range_start range_end : calendar_date) : string :=
  (strftime_ymd range_start ++ "T/" ++ strftime_ymd range_end ++ "T")%string.

(** ** Scenes and the selector's data frame *)

(** A Python [datetime]: a calendar date and a time of day. *)
Record py_datetime : Type := mkdatetime {
  dt_date : calendar_date;
  hour : Z;
  minute : Z;
  second : Z;
  microsecond : Z
}.

(** [datetime.strftime("%Y-%m-%d")] prints the date fields and nothing of
    the time of day. *)
Definition strftime (dt : py_datetime) : string := strftime_ymd (dt_date dt).

(** A STAC bounding box, the list [[west, south, east, north]] by index. *)
Record bbox : Type := mkbbox {
  bbox_0 : float;
  bbox_1 : float;
  bbox_2 : float;
  bbox_3 : float
}.

(** A scene of the catalog: [item.id], [item.datetime],
    [item.properties["platform"]] and [item.bbox]. *)
Record item : Type := mkitem {
  item_id : string;
  datetime : py_datetime;
  platform : string;
  item_bbox : bbox
}.

(** One record of [item_details] (lines 90-98). *)
Record row : Type := mkrow {
  row_datetime : string;
  row_platform : string;
  min_long : float;
  max_long : float;
  min_lat : float;
  max_lat : float;
  item_obj : item
}.

Definition item_record (it : item) : row :=
  {| row_datetime := strftime (datetime it);
     row_platform := platform it;
     min_long := bbox_0 (item_bbox it);
     max_long := bbox_2 (item_bbox it);
     min_lat := bbox_1 (item_bbox it);
     max_lat := bbox_3 (item_bbox it);
     item_obj := it |}.

(** A data frame: column labels and records.  [pd.DataFrame] takes the
    labels from the keys of the records it is given, so the frame built from
    an empty list has no column at all. *)
Record frame : Type := mkframe {
  columns : list string;
  rows : list row
}.

Definition item_columns : list string :=
  ["datetime"; "platform"; "min_long"; "max_long"; "min_lat"; "max_lat"; "item_obj"].

Definition DataFrame (records : list row) : frame :=
  {| columns := match records with [] => [] | _ :: _ => item_columns end;
     rows := records |}.

(** Attribute access to a column ([item_details.min_lat]): an
    [AttributeError] when the frame has no column of that name. *)
Definition getattr (df : frame) (name : string) : result unit :=
  if existsb (String.eqb name) (columns df) then Ok tt else Raise AttributeError.

(** The mask of lines 104-109; [a > b] on floats is [b < a]. *)
Definition contains_sample_point (latitude longitude : float) (r : row) : bool :=
  (PrimFloat.ltb (min_lat r) latitude)
  && (PrimFloat.ltb latitude (max_lat r))
  && (PrimFloat.ltb (min_long r) longitude)
  && (PrimFloat.ltb longitude (max_long r)).

(** One coordinate of the point equals a bound of the record's box: the
    point is on the line of an edge. *)
Definition on_edge (latitude longitude : float) (r : row) : bool :=
  PrimFloat.eqb latitude (min_lat r) || PrimFloat.eqb latitude (max_lat r)
  || PrimFloat.eqb longitude (min_long r) || PrimFloat.eqb longitude (max_long r).

(** The column of line 120. *)
Definition sentinel (r : row) : bool := contains (lower (row_platform r)) "sentinel".

(** The entry of the column [time_diff] (lines 115-117) for one record. *)
Definition time_diff (date : string) (r : row) : result Z :=
  t <- to_datetime date ;;
  u <- to_datetime (row_datetime r) ;;
  sub_timestamps t u.

(** The column [time_diff] of lines 115-117, beside each record: the sample
    date minus the record's date, both read by [pd.to_datetime]. *)
Definition add_time_diff (date : string) (rs : list row) : result (list (row * Z)) :=
  t <- to_datetime date ;;
  stamps <- map_result (fun r => to_datetime (row_datetime r)) rs ;;
  diffs <- map_result (sub_timestamps t) stamps ;;
  Ok (combine rs diffs).

(** [sort_values(by="time_diff", ascending=True)], as a sort that keeps
    records with equal keys in the order of the frame (a record goes before
    the first later record whose [time_diff] is not smaller), the way the
    specification words it.  pandas promises that order only for
    [kind="stable"] or ["mergesort"]; for the default [kind] of the call it
    is a choice of this model (the default sort may reorder equal keys in a
    longer frame), needed only where two records of the pool share the least
    [time_diff]. *)
Fixpoint insert_by_time_diff (x : row * Z) (l : list (row * Z)) : list (row * Z) :=
  match l with
  | [] => [x]
  | y :: t => if snd x <=? snd y then x :: y :: t else y :: insert_by_time_diff x t
  end.

Fixpoint sort_values (l : list (row * Z)) : list (row * Z) :=
  match l with
  | [] => []
  | x :: t => insert_by_time_diff x (sort_values t)
  end.

(** Lines 119-124: with a Sentinel record in the frame, only the Sentinel
    records stay. *)
Definition sentinel_if_any (xs : list (row * Z)) : list (row * Z) :=
  if existsb (fun x => sentinel (fst x)) xs
  then filter (fun x => sentinel (fst x)) xs
  else xs.

(** What [select_best_item] returns: the triple of [nan], or the scene, its
    platform name and its date text. *)
Inductive selection : Type :=
| nan_triple
| best (best_item : item) (item_platform : string) (item_date : string).

(** ** [select_best_item] (lines 79-129) *)

Definition select_best_item (items : list item) (date : string)
    (latitude longitude : float) : result selection :=
  let item_details := DataFrame (map item_record items) in
  _ <- getattr item_details "min_lat" ;;
  _ <- getattr item_details "max_lat" ;;
  _ <- getattr item_details "min_long" ;;
  _ <- getattr item_details "max_long" ;;
  let item_details := filter (contains_sample_point latitude longitude) (rows item_details) in
  if (Z.of_nat (List.length item_details) =? 0) then Ok nan_triple
  else
    item_details <- add_time_diff date item_details ;;
    let item_details := sentinel_if_any item_details in
    match sort_values item_details with
    | [] => Raise IndexError
    | best_item :: _ =>
        Ok (best (item_obj (fst best_item)) (row_platform (fst best_item))
                 (row_datetime (fst best_item)))
    end.

(** The candidates the choice is made among: those that contain the point,
    and only the Sentinel ones when one of them is a Sentinel scene. *)
Definition in_the_pool (items : list item) (latitude longitude : float) (c : item) : Prop :=
  In c items /\
  contains_sample_point latitude longitude (item_record c) = true /\
  ((exists s, In s items /\
              contains_sample_point latitude longitude (item_record s) = true /\
              sentinel (item_record s) = true) ->
   sentinel (item_record c) = true).

(** ** Scenes for the examples

    A box over western Java, from 107 to 108 degrees east and from 8 to 7
    degrees south, and scenes with that footprint. *)
Definition box_jawa : bbox := mkbbox 107%float (-8)%float 108%float (-7)%float.

Definition scene (id plat : string) (y m d h : Z) : item :=
  mkitem id (mkdatetime (mkdate y m d) h 30 0 0) plat box_jawa.

(** ** The collaborators of the script

    Each field stands for a call into a library or a remote service; any of
    them may raise.  [image] is the type of pixel arrays. *)
Record world (image : Type) : Type := mkworld {
  (** [os.makedirs(IMAGE_ARRAY_DIR, exist_ok=True)] *)
  makedirs : string -> result unit;
  (** [Client.open(...)] *)
  client_open : result unit;
  (** [distance.distance(meters=m).destination((lat, long), bearing=b)] *)
  destination : Z -> float * float -> Z -> result (float * float);
  (** [catalog.search(collections, bbox, datetime).get_all_items()] *)
  search : list string -> bbox -> string -> result (list item);
  (** [rioxarray.open_rasterio(pc.sign(...)).rio.clip_box(...).to_numpy()] *)
  open_visual : item -> bbox -> result image;
  (** [odc.stac.stac_load([pc.sign(item)], bands, bbox).isel(time=0)], as an array *)
  stac_load : item -> bbox -> result image;
  (** [cv2.normalize(a, None, 0, 255, cv2.NORM_MINMAX)] *)
  normalize : image -> result image;
  (** [np.transpose(a, axes=[1, 2, 0])] *)
  transpose : image -> result image;
  (** [cv2.imwrite(path, a)]: whether the file was written *)
  imwrite : string * (string * float * float * Z) -> image -> result bool
}.

Arguments makedirs {image} w _.
Arguments client_open {image} w.
Arguments destination {image} w _ _ _.
Arguments search {image} w _ _ _.
Arguments open_visual {image} w _ _.
Arguments stac_load {image} w _ _.
Arguments normalize {image} w _.
Arguments transpose {image} w _.
Arguments imwrite {image} w _ _.

(** ** [get_bounding_box] (lines 14-30) *)

Definition get_bounding_box {image} (w : world image) (latitude longitude : float)
    (meter_buffer : Z) : result bbox :=
  s <- destination w meter_buffer (latitude, longitude) 180 ;;
  let min_lat := fst s in
  wt <- destination w meter_buffer (latitude, longitude) 270 ;;
  let min_long := snd wt in
  n <- destination w meter_buffer (latitude, longitude) 0 ;;
  let max_lat := fst n in
  e <- destination w meter_buffer (latitude, longitude) 90 ;;
  let max_long := snd e in
  Ok (mkbbox min_long min_lat max_long max_lat).

(** ** The croppers (lines 43-77) *)

Definition crop_sentinel_image {image} (w : world image) (it : item)
    (bounding_box : bbox) : result image :=
  open_visual w it bounding_box.

Definition crop_landsat_image {image} (w : world image) (it : item)
    (bounding_box : bbox) : result image :=
  image_array <- stac_load w it bounding_box ;;
  normalize w image_array.

(** ** The rescaling of the Landsat crop (line 75) *)

(** The least and the greatest value of a pixel array, its values taken in
    one run whatever its shape. *)
Fixpoint array_min (a : list Q) : Q :=
  match a with
  | [] => 0%Q
  | [x] => x
  | x :: t => Qmin x (array_min t)
  end.

Fixpoint array_max (a : list Q) : Q :=
  match a with
  | [] => 0%Q
  | [x] => x
  | x :: t => Qmax x (array_max t)
  end.

(** Modelled from the spec: the body of [cv2.normalize] is missing, the
    script holding only its call [cv2.normalize(image_array, None, 0, 255,
    cv2.NORM_MINMAX)] on line 75.  The specification describes it as a linear
    rescaling of the pixel values into the range 0-255, a min-max
    normalization across the whole array: the least value of the array goes
    to [alpha], the greatest to [beta], and every value [x] to
    [alpha + (x - min) * (beta - alpha) / (max - min)].  The values are
    rationals: the rounding of the library's floating-point arithmetic is not
    part of that description. *)
Definition cv2_normalize (src : list Q) (alpha beta : Q) : list Q :=
  map (fun x => (alpha + (x - array_min src) * (beta - alpha)
                         / (array_max src - array_min src))%Q) src.

(** ** [main] (lines 131-189) *)

(** A record of [d_metadata]. *)
Record location : Type := mklocation {
  latitude : float;
  longitude : float;
  island : string;
  date : string;
  uid : Z
}.

#[warnings="-inexact-float"]
Definition farm_location : list (float * float * string) :=
  [ ((-7.675039)%float, 107.769191%float, "jawa");
    ((-7.786883)%float, 108.155444%float, "jawa");
    ((-5.552498)%float, 120.375194%float, "sulawesi");
    ((-5.559804)%float, 120.376871%float, "sulawesi");
    ((-5.573898)%float, 120.384974%float, "sulawesi") ].

Fixpoint with_uid (l : list (float * float * string)) (n : Z) : list location :=
  match l with
  | [] => []
  | (la, lo, isl) :: t => mklocation la lo isl "2022-08-31" n :: with_uid t (n + 1)
  end.

Definition d_metadata : list location := with_uid farm_location 0.

Definition IMAGE_ARRAY_DIR : string := "data/image_arrays".

(** The file name of line 159, kept as the values it is formatted from. *)
Definition image_array_pth (r : location) : string * (string * float * float * Z) :=
  (IMAGE_ARRAY_DIR, (island r, latitude r, longitude r, uid r)).

Section Driver.

Context {image : Type}.

(** The files written so far, oldest first. *)
Definition files : Type := list (string * (string * float * float * Z) * image).

(** The body of the loop (lines 159-189) for one record.  [bound] is what
    the names [best_item], [item_platform] and [item_date] hold on entry:
    nothing before their first assignment, else the last selection.  The
    result is their value on exit and the file written, if any. *)
Definition process_location (w : world image) (r : location) (bound : option selection)
    : result (option selection * files) :=
  search_bbox <- get_bounding_box w (latitude r) (longitude r) 50000 ;;
  date_range <- get_date_range (date r) 30 ;;
  items <- search w ["sentinel-2-l2a"; "landsat-c2-l2"] search_bbox date_range ;;
  bound <- (if Z.of_nat (List.length items) =? 0 then Ok bound
            else sel <- select_best_item items (date r) (latitude r) (longitude r) ;;
                 Ok (Some sel)) ;;
  feature_bbox <- get_bounding_box w (latitude r) (longitude r) 500 ;;
  match bound with
  | None => Raise UnboundLocalError
  | Some nan_triple => Raise AttributeError
  | Some (best best_item item_platform item_date) =>
      image_array <-
        (if contains (lower item_platform) "sentinel"
         then crop_sentinel_image w best_item feature_bbox
         else crop_landsat_image w best_item feature_bbox) ;;
      image_array <- transpose w image_array ;;
      written <- imwrite w (image_array_pth r) image_array ;;
      Ok (bound, if written then [(image_array_pth r, image_array)] else [])
  end.

(** The loop of line 158.  An exception leaves the loop; what was written
    before stays on disk. *)
Fixpoint for_each_row (w : world image) (rs : list location) (bound : option selection)
    (out : files) : files * result unit :=
  match rs with
  | [] => (out, Ok tt)
  | r :: rest =>
      match process_location w r bound with
      | Ok (bound', written) => for_each_row w rest bound' (out ++ written)%list
      | Raise e => (out, Raise e)
      end
  end.

Definition main (w : world image) : files * result unit :=
  match makedirs w IMAGE_ARRAY_DIR with
  | Raise e => ([], Raise e)
  | Ok _ =>
      match client_open w with
      | Raise e => ([], Raise e)
      | Ok _ => for_each_row w d_metadata None []
      end
  end.

(** [loop_reaches w rs bound out bound' out']: started with [bound] and
    [out], the loop goes through the records [rs] without an exception and
    leaves [bound'] and [out']. *)
Inductive loop_reaches (w : world image) :
    list location -> option selection -> files -> option selection -> files -> Prop :=
| reaches_nil (bound : option selection) (out : files) :
    loop_reaches w [] bound out bound out
| reaches_cons (r : location) (rs : list location) (bound bound1 bound' : option selection)
    (out written out' : files) :
    process_location w r bound = Ok (bound1, written) ->
    loop_reaches w rs bound1 (out ++ written)%list bound' out' ->
    loop_reaches w (r :: rs) bound out bound' out'.

End Driver.

(** ** Worlds for the examples

    Pixel arrays are texts naming what was read.  The geodesic library is
    replaced by a step of half a degree in the direction of the bearing, and
    every call but the catalog search succeeds. *)
Definition toy_destination (meters : Z) (p : float * float) (bearing : Z)
    : result (float * float) :=
  match bearing with
  | 0 => Ok (PrimFloat.add (fst p) 0.5%float, snd p)
  | 180 => Ok (PrimFloat.sub (fst p) 0.5%float, snd p)
  | 90 => Ok (fst p, PrimFloat.add (snd p) 0.5%float)
  | 270 => Ok (fst p, PrimFloat.sub (snd p) 0.5%float)
  | _ => Ok p
  end.

Definition toy_world (catalog : bbox -> result (list item)) : world string :=
  {| makedirs := fun _ => Ok tt;
     client_open := Ok tt;
     destination := toy_destination;
     search := fun _ b _ => catalog b;
     open_visual := fun it _ => Ok ("visual of " ++ item_id it)%string;
     stac_load := fun it _ => Ok ("rgb of " ++ item_id it)%string;
     normalize := fun a => Ok a;
     transpose := fun a => Ok a;
     imwrite := fun _ _ => Ok true |}.

(** A world whose pixel arrays are lists of rationals: every scene reads as
    the six values below, and the rescaling is [cv2_normalize] with the
    bounds of line 75. *)
Definition landsat_world : world (list Q) :=
  {| makedirs := fun _ => Ok tt;
     client_open := Ok tt;
     destination := toy_destination;
     search := fun _ _ _ => Ok [];
     open_visual := fun _ _ => Ok [];
     stac_load := fun _ _ => Ok [7312#1; 8120#1; 65535#1; 0#1; 9001#2; 7312#1]%Q;
     normalize := fun a => Ok (cv2_normalize a 0 255);
     transpose := fun a => Ok a;
     imwrite := fun _ _ => Ok true |}.

(** The [n]-th record of [d_metadata], from 0. *)
Definition row_at (n : nat) : location :=
  nth n d_metadata (mklocation 0%float 0%float "" "" 0).

(** A catalog with no scene at all. *)
Definition empty_catalog (b : bbox) : result (list item) := Ok [].

(** A catalog with one Sentinel scene over western Java, found by a search
    whose box starts west of 107.5 degrees (the first location's does), and
    nothing elsewhere. *)
Definition jawa_catalog (b : bbox) : result (list item) :=
  if PrimFloat.ltb (bbox_0 b) 107.5%float
  then Ok [scene "S" "Sentinel-2A" 2022 8 30 2]
  else Ok [].

(** A catalog that has, for every search, a Sentinel scene whose footprint is
    the box searched, and that cannot be reached for the searches whose box
    starts between 107.5 and 108 degrees east (the second location's). *)
Definition flaky_catalog (b : bbox) : result (list item) :=
  if PrimFloat.ltb 107.5%float (bbox_0 b) && PrimFloat.ltb (bbox_0 b) 108%float
  then Raise (CollaboratorError "catalog unreachable")
  else Ok [mkitem "S" (mkdatetime (mkdate 2022 8 30) 2 30 0 0) "Sentinel-2A" b].

(** A catalog whose only scene, a Landsat scene of the sample day, lies over
    Sulawesi between 120 and 121 degrees east. *)
Definition sulawesi_catalog (b : bbox) : result (list item) :=
  Ok [mkitem "far" (mkdatetime (mkdate 2022 8 31) 2 30 0 0) "landsat-8"
        (mkbbox 120%float (-6)%float 121%float (-5)%float)].

(** * Properties *)

(** ** Calendar arithmetic *)

Lemma div_mod_pin (a b q r : Z) : 0 <= r < b -> a = b * q + r -> a / b = q /\ a mod b = r.
Proof.
  intros Hr Ha. split.
  - symmetry. apply (Z.div_unique a b q r); [left; exact Hr | exact Ha].
  - symmetry. apply (Z.mod_unique a b q r); [left; exact Hr | exact Ha].
Qed.

(** The days before a year whose number, less one, is written in the cycles
    of 400, 100, 4 and 1 years. *)
Lemma days_before_year_cycles (a b c e : Z) :
  0 <= b <= 3 -> 0 <= c <= 24 -> 0 <= e <= 3 ->
  days_before_year (400 * a + 100 * b + 4 * c + e + 1) =
  146097 * a + 36524 * b + 1461 * c + 365 * e.
Proof.
  intros Hb Hc He. unfold days_before_year. cbv zeta.
  replace (400 * a + 100 * b + 4 * c + e + 1 - 1) with (400 * a + 100 * b + 4 * c + e) by lia.
  destruct (div_mod_pin (400 * a + 100 * b + 4 * c + e) 4 (100 * a + 25 * b + c) e) as [-> _]; [lia | lia |].
  destruct (div_mod_pin (400 * a + 100 * b + 4 * c + e) 100 (4 * a + b) (4 * c + e)) as [-> _]; [lia | lia |].
  destruct (div_mod_pin (400 * a + 100 * b + 4 * c + e) 400 a (100 * b + 4 * c + e)) as [-> _]; [lia | lia |].
  lia.
Qed.


Lemma is_leap_cycles (a b c e : Z) :
  0 <= b <= 3 -> 0 <= c <= 24 -> 0 <= e <= 3 ->
  is_leap (400 * a + 100 * b + 4 * c + e + 1) = (e =? 3) && (negb (c =? 24) || (b =? 3)).
Proof.
  intros Hb Hc He. unfold is_leap.
  set (y := 400 * a + 100 * b + 4 * c + e + 1).
  assert (M4 : y mod 4 = (e + 1) mod 4).
  { unfold y. replace (400 * a + 100 * b + 4 * c + e + 1) with (e + 1 + (100 * a + 25 * b + c) * 4) by lia.
    apply Z.mod_add. lia. }
  assert (M100 : y mod 100 = (4 * c + e + 1) mod 100).
  { unfold y. replace (400 * a + 100 * b + 4 * c + e + 1) with (4 * c + e + 1 + (4 * a + b) * 100) by lia.
    apply Z.mod_add. lia. }
  assert (M400 : y mod 400 = (100 * b + 4 * c + e + 1) mod 400).
  { unfold y. replace (400 * a + 100 * b + 4 * c + e + 1) with (100 * b + 4 * c + e + 1 + a * 400) by lia.
    apply Z.mod_add. lia. }
  rewrite M4, M100, M400. clear M4 M100 M400 y.
  assert (e = 0 \/ e = 1 \/ e = 2 \/ e = 3) as [-> | [-> | [-> | ->]]] by lia; try reflexivity.
  change ((3 + 1) mod 4 =? 0) with true. cbn [andb].
  change (3 =? 3) with true. cbn [andb].
  destruct (Z.eqb_spec c 24) as [-> | C].
  - change ((4 * 24 + 3 + 1) mod 100 =? 0) with true. cbn [negb orb].
    assert (b = 0 \/ b = 1 \/ b = 2 \/ b = 3) as [-> | [-> | [-> | ->]]] by lia; reflexivity.
  - cbn [negb orb].
    rewrite (Z.mod_small (4 * c + 3 + 1) 100) by lia.
    destruct (Z.eqb_spec (4 * c + 3 + 1) 0); [lia | reflexivity].
Qed.




Lemma month_cases (m : Z) :
  1 <= m <= 12 ->
  m = 1 \/ m = 2 \/ m = 3 \/ m = 4 \/ m = 5 \/ m = 6 \/ m = 7 \/ m = 8 \/ m = 9 \/
  m = 10 \/ m = 11 \/ m = 12.
Proof. lia. Qed.

Lemma find_month_spec (y r : Z) :
  0 <= r < 365 + (if is_leap y then 1 else 0) ->
  let '(m, d) := find_month y months r in
  1 <= m <= 12 /\ 1 <= d <= days_in_month y m /\ days_before_month y m + d = r + 1.
Proof.
  intros Hr. unfold months, find_month, days_in_month, days_before_month.
  destruct (is_leap y); cbn -[Z.add Z.sub Z.ltb] in *;
    repeat match goal with
           | |- context [if (?x <? ?k)%Z then _ else _] => destruct (Z.ltb_spec x k)
           end; cbn -[Z.add Z.sub]; lia.
Qed.

Lemma find_month_pin (y m d : Z) :
  1 <= m <= 12 -> 1 <= d <= days_in_month y m ->
  find_month y months (days_before_month y m + d - 1) = (m, d).
Proof.
  intros Hm Hd.
  pose proof (month_cases m Hm) as Hcase.
  unfold months, find_month, days_in_month, days_before_month in *.
  destruct (is_leap y);
    repeat (destruct Hcase as [-> | Hcase]); try subst m;
    cbn -[Z.add Z.sub Z.ltb] in *;
    repeat match goal with
           | |- context [if (?x <? ?k)%Z then _ else _] => destruct (Z.ltb_spec x k); try lia
           end; f_equal; lia.
Qed.

Lemma ymd2ord_ord2ymd (n : Z) :
  let '(y, m, d) := ord2ymd n in
  ymd2ord y m d = n /\ 1 <= m <= 12 /\ 1 <= d <= days_in_month y m.
Proof.
  unfold ord2ymd.
  set (n0 := n - 1).
  pose proof (Z.div_mod n0 146097 ltac:(lia)) as E400.
  pose proof (Z.mod_pos_bound n0 146097 ltac:(lia)) as B400.
  set (a := n0 / 146097) in *. set (r400 := n0 mod 146097) in *.
  pose proof (Z.div_mod r400 36524 ltac:(lia)) as E100.
  pose proof (Z.mod_pos_bound r400 36524 ltac:(lia)) as B100.
  pose proof (Z.div_pos r400 36524 ltac:(lia) ltac:(lia)) as P100.
  set (b := r400 / 36524) in *. set (r100 := r400 mod 36524) in *.
  pose proof (Z.div_mod r100 1461 ltac:(lia)) as E4.
  pose proof (Z.mod_pos_bound r100 1461 ltac:(lia)) as B4.
  pose proof (Z.div_pos r100 1461 ltac:(lia) ltac:(lia)) as P4.
  set (c := r100 / 1461) in *. set (r4 := r100 mod 1461) in *.
  pose proof (Z.div_mod r4 365 ltac:(lia)) as E1.
  pose proof (Z.mod_pos_bound r4 365 ltac:(lia)) as B1.
  pose proof (Z.div_pos r4 365 ltac:(lia) ltac:(lia)) as P1.
  set (e := r4 / 365) in *. set (r1 := r4 mod 365) in *.
  cbv zeta.
  assert (Hn : n = 146097 * a + 36524 * b + 1461 * c + 365 * e + r1 + 1) by lia.
  assert (Hb : 0 <= b <= 4) by lia.
  assert (Hc : 0 <= c <= 24) by lia.
  assert (He : 0 <= e <= 4) by lia.
  destruct (Z.eqb_spec e 4) as [E | E]; cbn [orb].
  - (* last day of a leap year closing a 4-year cycle *)
    assert (r1 = 0) by lia. assert (c <= 23) by lia. assert (b <= 3) by lia.
    replace (a * 400 + 1 + b * 100 + c * 4 + e - 1) with (400 * a + 100 * b + 4 * c + 3 + 1) by lia.
    unfold ymd2ord, days_in_month, days_before_month.
    rewrite days_before_year_cycles, is_leap_cycles by lia.
    change (3 =? 3) with true. destruct (Z.eqb_spec c 24); [lia |].
    cbn -[Z.add Z.mul]. lia.
  - destruct (Z.eqb_spec b 4) as [B | B].
    + (* last day of a 400-year cycle *)
      assert (c = 0 /\ e = 0 /\ r1 = 0) as (-> & -> & ->) by lia.
      replace (a * 400 + 1 + b * 100 + 0 * 4 + 0 - 1) with (400 * a + 100 * 3 + 4 * 24 + 3 + 1) by lia.
      unfold ymd2ord, days_in_month, days_before_month.
      rewrite days_before_year_cycles, is_leap_cycles by lia.
      cbn -[Z.add Z.mul]. lia.
    + replace (a * 400 + 1 + b * 100 + c * 4 + e) with (400 * a + 100 * b + 4 * c + e + 1) by lia.
      set (y := 400 * a + 100 * b + 4 * c + e + 1).
      pose proof (find_month_spec y r1) as F.
      destruct (find_month y months r1) as [m d].
      destruct F as (Fm & Fd & Fs).
      { destruct (is_leap y); lia. }
      repeat split; try lia.
      unfold ymd2ord. unfold y at 1. rewrite days_before_year_cycles by lia. lia.
Qed.

(** [ord2ymd] on an ordinal written in the cycles, for a day of the year
    other than the 366th. *)
Lemma ord2ymd_cycles (a b c e doy : Z) :
  0 <= b <= 3 -> 0 <= c <= 24 -> 0 <= e <= 3 -> 0 <= doy <= 364 ->
  ord2ymd (146097 * a + 36524 * b + 1461 * c + 365 * e + doy + 1) =
  (let '(m, d) := find_month (400 * a + 100 * b + 4 * c + e + 1) months doy in
   (400 * a + 100 * b + 4 * c + e + 1, m, d)).
Proof.
  intros Hb Hc He Hd. unfold ord2ymd. cbv zeta.
  replace (146097 * a + 36524 * b + 1461 * c + 365 * e + doy + 1 - 1)
    with (146097 * a + 36524 * b + 1461 * c + 365 * e + doy) by lia.
  destruct (div_mod_pin (146097 * a + 36524 * b + 1461 * c + 365 * e + doy) 146097 a
              (36524 * b + 1461 * c + 365 * e + doy)) as [-> ->]; [lia | lia |].
  destruct (div_mod_pin (36524 * b + 1461 * c + 365 * e + doy) 36524 b
              (1461 * c + 365 * e + doy)) as [-> ->]; [lia | lia |].
  destruct (div_mod_pin (1461 * c + 365 * e + doy) 1461 c (365 * e + doy)) as [-> ->];
    [lia | lia |].
  destruct (div_mod_pin (365 * e + doy) 365 e doy) as [-> ->]; [lia | lia |].
  destruct (Z.eqb_spec e 4); [lia |]. destruct (Z.eqb_spec b 4); [lia |]. cbn [orb].
  replace (a * 400 + 1 + b * 100 + c * 4 + e) with (400 * a + 100 * b + 4 * c + e + 1) by lia.
  reflexivity.
Qed.

(** The same for the 366th day of a leap year. *)
Lemma ord2ymd_cycles_366 (a b c : Z) :
  0 <= b <= 3 -> 0 <= c <= 24 -> c <> 24 \/ b = 3 ->
  ord2ymd (146097 * a + 36524 * b + 1461 * c + 365 * 3 + 365 + 1) =
  (400 * a + 100 * b + 4 * c + 3 + 1, 12, 31).
Proof.
  intros Hb Hc Hl. unfold ord2ymd. cbv zeta.
  replace (146097 * a + 36524 * b + 1461 * c + 365 * 3 + 365 + 1 - 1)
    with (146097 * a + 36524 * b + 1461 * c + 1460) by lia.
  destruct (Z.eq_dec c 24) as [C | C].
  - assert (b = 3) by lia. subst b c.
    destruct (div_mod_pin (146097 * a + 36524 * 3 + 1461 * 24 + 1460) 146097 a 146096)
      as [-> ->]; [lia | lia |].
    change (146096 / 36524) with 4. change (146096 mod 36524) with 0.
    change (0 / 1461) with 0. change (0 mod 1461) with 0. change (0 / 365) with 0.
    change (0 =? 4) with false. change (4 =? 4) with true. cbn [orb].
    f_equal. f_equal. lia.
  - destruct (div_mod_pin (146097 * a + 36524 * b + 1461 * c + 1460) 146097 a
                (36524 * b + 1461 * c + 1460)) as [-> ->]; [lia | lia |].
    destruct (div_mod_pin (36524 * b + 1461 * c + 1460) 36524 b (1461 * c + 1460))
      as [-> ->]; [lia | lia |].
    destruct (div_mod_pin (1461 * c + 1460) 1461 c 1460) as [-> ->]; [lia | lia |].
    change (1460 / 365) with 4. change (4 =? 4) with true. cbn [orb].
    f_equal. f_equal. lia.
Qed.

Lemma year_cycles (y : Z) :
  exists a b c e, y = 400 * a + 100 * b + 4 * c + e + 1 /\
                  0 <= b <= 3 /\ 0 <= c <= 24 /\ 0 <= e <= 3.
Proof.
  pose proof (Z.div_mod (y - 1) 400 ltac:(lia)) as E400.
  pose proof (Z.mod_pos_bound (y - 1) 400 ltac:(lia)) as B400.
  pose proof (Z.div_mod ((y - 1) mod 400) 100 ltac:(lia)) as E100.
  pose proof (Z.mod_pos_bound ((y - 1) mod 400) 100 ltac:(lia)) as B100.
  pose proof (Z.div_pos ((y - 1) mod 400) 100 ltac:(lia) ltac:(lia)) as P100.
  pose proof (Z.div_mod (((y - 1) mod 400) mod 100) 4 ltac:(lia)) as E4.
  pose proof (Z.mod_pos_bound (((y - 1) mod 400) mod 100) 4 ltac:(lia)) as B4.
  pose proof (Z.div_pos (((y - 1) mod 400) mod 100) 4 ltac:(lia) ltac:(lia)) as P4.
  exists ((y - 1) / 400), (((y - 1) mod 400) / 100), ((((y - 1) mod 400) mod 100) / 4),
    ((((y - 1) mod 400) mod 100) mod 4).
  lia.
Qed.

Lemma day_of_year_bounds (y m d : Z) :
  1 <= m <= 12 -> 1 <= d <= days_in_month y m ->
  0 <= days_before_month y m + d - 1 < 365 + (if is_leap y then 1 else 0).
Proof.
  intros Hm Hd. unfold days_before_month, days_in_month in *.
  pose proof (month_cases m Hm) as Hcase.
  destruct (is_leap y); repeat (destruct Hcase as [-> | Hcase]); try subst m;
    cbn -[Z.add Z.sub] in *; lia.
Qed.

Lemma ord2ymd_ymd2ord (y m d : Z) :
  1 <= m <= 12 -> 1 <= d <= days_in_month y m ->
  ord2ymd (ymd2ord y m d) = (y, m, d).
Proof.
  intros Hm Hd.
  destruct (year_cycles y) as (a & b & c & e & Hy & Hb & Hc & He).
  pose proof (find_month_pin y m d Hm Hd) as F.
  pose proof (day_of_year_bounds y m d Hm Hd) as Hdoy.
  pose proof (is_leap_cycles a b c e Hb Hc He) as L. rewrite <- Hy in L.
  assert (Hord : ymd2ord y m d =
                 146097 * a + 36524 * b + 1461 * c + 365 * e
                 + (days_before_month y m + d - 1) + 1).
  { unfold ymd2ord. rewrite Hy at 1. rewrite days_before_year_cycles by lia. lia. }
  rewrite Hord. clear Hord.
  revert F Hdoy. generalize (days_before_month y m + d - 1). intros doy F Hdoy.
  destruct (Z.eq_dec doy 365) as [D | D].
  - (* 31 December of a leap year *)
    assert (Lt : is_leap y = true) by (destruct (is_leap y); [reflexivity | lia]).
    rewrite Lt in L. symmetry in L.
    apply andb_true_iff in L. destruct L as [L3 Lc]. apply Z.eqb_eq in L3. subst e doy.
    assert (Fmd : (12, 31) = (m, d)).
    { rewrite <- F. unfold months, find_month, days_in_month. rewrite Lt. reflexivity. }
    inversion Fmd; subst m d. clear Fmd.
    rewrite ord2ymd_cycles_366; [rewrite Hy; reflexivity | lia | lia |].
    apply orb_true_iff in Lc. destruct Lc as [Lc | Lc].
    + left. intros ->. discriminate Lc.
    + right. apply Z.eqb_eq. exact Lc.
  - assert (Hd365 : doy <= 364) by (destruct (is_leap y); lia).
    rewrite ord2ymd_cycles by lia. rewrite <- Hy, F. reflexivity.
Qed.

(** The two conversions are inverse on the dates the calendar has. *)
Lemma date_of_ordinal_ordinal (d : calendar_date) :
  valid_date d = true -> date_of_ordinal (ordinal d) = d.
Proof.
  intros V. unfold valid_date in V.
  repeat (apply andb_true_iff in V; destruct V as [V ?]).
  unfold date_of_ordinal, ordinal.
  rewrite ord2ymd_ymd2ord by lia. destruct d; reflexivity.
Qed.

Lemma ordinal_date_of_ordinal (n : Z) :
  ordinal (date_of_ordinal n) = n /\
  1 <= month (date_of_ordinal n) <= 12 /\
  1 <= day (date_of_ordinal n) <= days_in_month (year (date_of_ordinal n)) (month (date_of_ordinal n)).
Proof.
  pose proof (ymd2ord_ord2ymd n) as H. unfold date_of_ordinal, ordinal.
  destruct (ord2ymd n) as [[y m] d]. exact H.
Qed.

(** A year has 365 days, and one more when it is a leap year. *)
Lemma days_before_year_succ (y : Z) :
  days_before_year (y + 1) = days_before_year y + 365 + (if is_leap y then 1 else 0).
Proof.
  destruct (year_cycles y) as (a & b & c & e & Hy & Hb & Hc & He).
  destruct (year_cycles (y + 1)) as (a' & b' & c' & e' & Hy' & Hb' & Hc' & He').
  pose proof (days_before_year_cycles a b c e Hb Hc He) as D.
  pose proof (days_before_year_cycles a' b' c' e' Hb' Hc' He') as D'.
  pose proof (is_leap_cycles a b c e Hb Hc He) as L.
  rewrite <- Hy in D, L. rewrite <- Hy' in D'. rewrite D, D', L.
  destruct (Z.eqb_spec e 3); destruct (Z.eqb_spec c 24); destruct (Z.eqb_spec b 3);
    cbn [andb orb negb]; lia.
Qed.

Lemma days_before_year_mono (y k : Z) :
  0 <= k -> days_before_year y + 365 * k <= days_before_year (y + k).
Proof.
  intros Hk. revert y. pattern k. apply natlike_ind; [| | exact Hk].
  - intros y. replace (y + 0) with y by lia. lia.
  - intros x Hx IH y. replace (y + Z.succ x) with ((y + x) + 1) by lia.
    rewrite days_before_year_succ. specialize (IH y).
    destruct (is_leap (y + x)); lia.
Qed.

(** The year of a valid date, from bounds on its ordinal. *)
Lemma year_of_ordinal_bounds (d : calendar_date) (lo hi : Z) :
  1 <= month d <= 12 -> 1 <= day d <= days_in_month (year d) (month d) ->
  days_before_year lo < ordinal d <= days_before_year (hi + 1) ->
  lo <= year d <= hi.
Proof.
  intros Hm Hd [Hlo Hhi].
  pose proof (day_of_year_bounds (year d) (month d) (day d) Hm Hd) as B.
  pose proof (days_before_year_succ (year d)) as S.
  unfold ordinal, ymd2ord in *.
  split.
  - destruct (Z_lt_le_dec (year d) lo) as [L | L]; [| exact L].
    pose proof (days_before_year_mono (year d + 1) (lo - year d - 1) ltac:(lia)) as M.
    replace (year d + 1 + (lo - year d - 1)) with lo in M by lia.
    destruct (is_leap (year d)); lia.
  - destruct (Z_lt_le_dec hi (year d)) as [L | L]; [| lia].
    pose proof (days_before_year_mono (hi + 1) (year d - hi - 1) ltac:(lia)) as M.
    replace (hi + 1 + (year d - hi - 1)) with (year d) in M by lia. lia.
Qed.

(** Consecutive days have consecutive ordinals: inside a month, from the
    last day of a month to the first of the next, and from 31 December to
    1 January. *)
Lemma ordinal_next_day (y m d : Z) :
  ordinal (mkdate y m (d + 1)) = ordinal (mkdate y m d) + 1 /\
  (1 <= m < 12 ->
   ordinal (mkdate y (m + 1) 1) = ordinal (mkdate y m (days_in_month y m)) + 1) /\
  ordinal (mkdate (y + 1) 1 1) = ordinal (mkdate y 12 31) + 1.
Proof.
  unfold ordinal, ymd2ord. cbn [year month day]. split; [lia | split].
  - intros Hm.
    assert (m = 1 \/ m = 2 \/ m = 3 \/ m = 4 \/ m = 5 \/ m = 6 \/ m = 7 \/ m = 8 \/ m = 9 \/
            m = 10 \/ m = 11) as Hcase by lia.
    unfold days_before_month, days_in_month.
    destruct (is_leap y); repeat (destruct Hcase as [-> | Hcase]); try subst m;
      match goal with
      | |- context [Z.pos ?a + 1] =>
          let v := eval compute in (Z.pos a + 1) in change (Z.pos a + 1) with v
      end;
      cbn -[Z.add days_before_year]; lia.
  - rewrite days_before_year_succ. unfold days_before_month.
    destruct (is_leap y), (is_leap (y + 1)); cbn -[Z.add days_before_year]; lia.
Qed.

(** ** Dates as text *)

Lemma digit_value_digit_char (n : Z) : digit_value (digit_char n) = Some (n mod 10).
Proof.
  unfold digit_char.
  pose proof (Z.mod_pos_bound n 10 ltac:(lia)) as B.
  assert (n mod 10 = 0 \/ n mod 10 = 1 \/ n mod 10 = 2 \/ n mod 10 = 3 \/ n mod 10 = 4 \/
          n mod 10 = 5 \/ n mod 10 = 6 \/ n mod 10 = 7 \/ n mod 10 = 8 \/ n mod 10 = 9)
    as H by lia.
  repeat (destruct H as [-> | H]); try rewrite H; reflexivity.
Qed.

(** [pd.to_datetime] reads back what [strftime] printed. *)
Lemma parse_ymd_strftime_ymd (d : calendar_date) :
  0 <= year d <= 9999 -> 0 <= month d <= 99 -> 0 <= day d <= 99 ->
  parse_ymd (strftime_ymd d) = Some d.
Proof.
  intros Hy Hm Hd. unfold parse_ymd, strftime_ymd.
  cbn [list_ascii_of_string].
  rewrite !digit_value_digit_char.
  change (Ascii.eqb "-" "-") with true. cbn [andb].
  destruct d as [y m dd]. cbn [year month day] in *.
  f_equal. f_equal; Z.div_mod_to_equations; lia.
Qed.

(** ** Timestamps *)

(** The days a 64-bit count of nanoseconds can hold, on either side of
    1970-01-01: from 1677-09-22 to 2262-04-11. *)
Lemma in_int64_days (n : Z) :
  in_int64 (n * ns_per_day) = true <-> -106751 <= n <= 106751.
Proof.
  unfold in_int64, ns_per_day. change (2 ^ 63) with 9223372036854775808.
  rewrite andb_true_iff, !Z.ltb_lt. lia.
Qed.

Lemma to_datetime_strftime_ymd (d : calendar_date) :
  valid_date d = true ->
  -106751 <= ordinal d - epoch_ordinal <= 106751 ->
  to_datetime (strftime_ymd d) = Ok ((ordinal d - epoch_ordinal) * ns_per_day).
Proof.
  intros V B. unfold to_datetime.
  assert (V' := V). unfold valid_date in V'.
  repeat (apply andb_true_iff in V'; destruct V' as [V' ?]).
  assert (days_in_month (year d) (month d) <= 31).
  { unfold days_in_month. destruct (month d =? 2); [destruct (is_leap (year d)); lia |].
    destruct ((month d =? 4) || (month d =? 6) || (month d =? 9) || (month d =? 11)); lia. }
  rewrite parse_ymd_strftime_ymd by lia.
  rewrite V. cbv zeta.
  apply in_int64_days in B. rewrite B. reflexivity.
Qed.

Lemma timestamp_date_days (n : Z) :
  timestamp_date (n * ns_per_day) = date_of_ordinal (n + epoch_ordinal).
Proof.
  unfold timestamp_date. rewrite Z.div_mul; [reflexivity | discriminate].
Qed.

(** The date of an ordinal between 1677-09-22 and 2262-04-11 is valid. *)
Lemma valid_date_of_ordinal (n : Z) :
  -106751 <= n - epoch_ordinal <= 106751 -> valid_date (date_of_ordinal n) = true.
Proof.
  intros B. destruct (ordinal_date_of_ordinal n) as (O & M & D).
  assert (Y : 1677 <= year (date_of_ordinal n) <= 2262).
  { apply year_of_ordinal_bounds; [exact M | exact D |].
    rewrite O. change (days_before_year 1677) with 612147.
    change (days_before_year (2262 + 1)) with 826178.
    unfold epoch_ordinal in B. lia. }
  unfold valid_date. repeat (apply andb_true_iff; split); apply Z.leb_le; lia.
Qed.

(** ** The date range (C5) *)

Lemma append_assoc (a b c : string) : ((a ++ b) ++ c = a ++ (b ++ c))%string.
Proof. induction a as [| x a IH]; cbn; [reflexivity | rewrite IH; reflexivity]. Qed.

(** C5, as stated, fails: for the script's own sample date and a window of
    30 days the answer is not the pair of ISO-8601 dates joined by [/]. *)
Lemma get_date_range_is_not_iso8601 :
  get_date_range "2022-08-31" 30 = Ok "2022-08-01T/2022-08-31T" /\
  get_date_range "2022-08-31" 30 <>
    Ok (iso8601_interval (mkdate 2022 8 1) (mkdate 2022 8 31)).
Proof.
  split.
  - vm_compute. reflexivity.
  - vm_compute. intros E. inversion E.
Qed.

(** C5, amended: for a date [D] and a window [W >= 0] within the range of
    the timestamps, the calculator answers [<S>T/<D>T], where [S] is the
    calendar date [W] days before [D]: both dates in the layout
    [%Y-%m-%d], each followed by the letter [T] and no time of day, across
    month and year boundaries. *)
Theorem get_date_range_spec (D : calendar_date) (W : Z) :
  valid_date D = true ->
  0 <= W <= 106751 ->
  ordinal (mkdate 1677 9 22) <= ordinal D - W ->
  ordinal D <= ordinal (mkdate 2262 4 11) ->
  exists S : calendar_date,
    get_date_range (strftime_ymd D) W = Ok (dateT_interval S D) /\
    valid_date S = true /\
    ordinal S = ordinal D - W.
Proof.
  intros V HW Hlo Hhi.
  change (ordinal (mkdate 1677 9 22)) with 612412 in Hlo.
  change (ordinal (mkdate 2262 4 11)) with 825914 in Hhi.
  exists (date_of_ordinal (ordinal D - W)).
  assert (BD : -106751 <= ordinal D - epoch_ordinal <= 106751) by (unfold epoch_ordinal; lia).
  assert (BS : -106751 <= (ordinal D - W) - epoch_ordinal <= 106751)
    by (unfold epoch_ordinal; lia).
  split; [| split].
  - unfold get_date_range.
    rewrite (to_datetime_strftime_ymd D V BD). cbn [bind].
    unfold sub_days.
    assert (HWn : in_int64 (W * ns_per_day) = true) by (apply in_int64_days; lia).
    rewrite HWn.
    replace ((ordinal D - epoch_ordinal) * ns_per_day - W * ns_per_day)
      with ((ordinal D - W - epoch_ordinal) * ns_per_day) by lia.
    assert (HSn : in_int64 ((ordinal D - W - epoch_ordinal) * ns_per_day) = true)
      by (apply in_int64_days; lia).
    rewrite HSn. cbn [bind].
    unfold strftime_ymdT. rewrite !timestamp_date_days.
    replace (ordinal D - W - epoch_ordinal + epoch_ordinal) with (ordinal D - W) by lia.
    replace (ordinal D - epoch_ordinal + epoch_ordinal) with (ordinal D) by lia.
    rewrite (date_of_ordinal_ordinal D V).
    unfold dateT_interval. rewrite !append_assoc. reflexivity.
  - apply valid_date_of_ordinal. exact BS.
  - apply ordinal_date_of_ordinal.
Qed.

(** The sample date of the script with the driver's window of 30 days, and a
    window that crosses a leap day and a year boundary. *)
Lemma get_date_range_spec_witness :
  (exists S, get_date_range (strftime_ymd (mkdate 2022 8 31)) 30
             = Ok (dateT_interval S (mkdate 2022 8 31)) /\
             valid_date S = true /\ ordinal S = ordinal (mkdate 2022 8 31) - 30) /\
  get_date_range "2024-03-01" 1 = Ok "2024-02-29T/2024-03-01T" /\
  get_date_range "2022-01-01" 1 = Ok "2021-12-31T/2022-01-01T".
Proof.
  split; [| split; reflexivity].
  apply (get_date_range_spec (mkdate 2022 8 31) 30).
  - reflexivity.
  - lia.
  - vm_compute. discriminate.
  - vm_compute. discriminate.
Defined.

(** ** Float comparison on an edge *)

Lemma SFcompare_swap (x y : spec_float) :
  SFcompare y x = option_map CompOpp (SFcompare x y).
Proof.
  destruct x as [sx | sx | | sx mx ex], y as [sy | sy | | sy my ey]; cbn;
    try reflexivity;
    try (destruct sx; reflexivity); try (destruct sy; reflexivity);
    try (destruct sx, sy; reflexivity).
  destruct sx, sy; cbn; try reflexivity;
    rewrite (Z.compare_antisym ey ex);
    destruct (ey ?= ex)%Z; cbn; try reflexivity;
    rewrite (Pos.compare_cont_antisym mx my Eq); cbn;
    destruct (Pos.compare_cont Eq mx my); reflexivity.
Qed.

(** Two floats that compare equal are not strictly ordered, either way. *)
Lemma eqb_not_ltb (a b : float) :
  PrimFloat.eqb a b = true -> PrimFloat.ltb a b = false /\ PrimFloat.ltb b a = false.
Proof.
  rewrite FloatAxioms.eqb_spec, !FloatAxioms.ltb_spec. unfold SFeqb, SFltb.
  rewrite (SFcompare_swap (Prim2SF a) (Prim2SF b)).
  destruct (SFcompare (Prim2SF a) (Prim2SF b)) as [[ | | ] |]; cbn;
    intros H; try discriminate H; split; reflexivity.
Qed.

(** ** The frame of the selector *)

Lemma map_result_ok {A B : Type} (f : A -> result B) (l : list A) (bs : list B) :
  map_result f l = Ok bs -> Forall2 (fun a b => f a = Ok b) l bs.
Proof.
  revert bs. induction l as [| a l IH]; intros bs H; cbn in H.
  - inversion H. constructor.
  - destruct (f a) as [b |] eqn:Fa; cbn in H; [| discriminate H].
    destruct (map_result f l) as [bs' |] eqn:Fl; cbn in H; [| discriminate H].
    inversion H; subst. constructor; [exact Fa | apply IH; reflexivity].
Qed.

Lemma map_result_total {A B : Type} (f : A -> result B) (l : list A) :
  Forall (fun a => exists b, f a = Ok b) l -> exists bs, map_result f l = Ok bs.
Proof.
  induction 1 as [| a l [b Hb] _ [bs IH]]; cbn.
  - exists []. reflexivity.
  - exists (b :: bs). rewrite Hb, IH. reflexivity.
Qed.

(** [add_time_diff] pairs every record, in order, with its [time_diff]. *)
Lemma add_time_diff_ok (date : string) (rs : list row) (xs : list (row * Z)) :
  add_time_diff date rs = Ok xs ->
  Forall2 (fun r x => fst x = r /\ time_diff date r = Ok (snd x)) rs xs.
Proof.
  unfold add_time_diff, time_diff.
  destruct (to_datetime date) as [t |]; cbn [bind]; [| discriminate].
  destruct (map_result _ rs) as [stamps |] eqn:S; cbn [bind]; [| discriminate].
  destruct (map_result _ stamps) as [diffs |] eqn:D; cbn [bind]; [| discriminate].
  intros H. inversion H; subst xs. clear H.
  apply map_result_ok in S. apply map_result_ok in D.
  revert diffs D. induction S as [| r u rs stamps Hr S IH]; intros diffs D.
  - inversion D. constructor.
  - inversion D as [| u' d stamps' diffs' Hd D']; subst. cbn [combine].
    constructor; [| apply IH; exact D'].
    cbn [fst snd]. split; [reflexivity |]. rewrite Hr. cbn [bind]. exact Hd.
Qed.

Lemma add_time_diff_total (date : string) (rs : list row) :
  rs <> [] ->
  Forall (fun r => exists d, time_diff date r = Ok d) rs ->
  exists xs, add_time_diff date rs = Ok xs.
Proof.
  intros Hne H. unfold add_time_diff.
  assert (T : exists t, to_datetime date = Ok t).
  { destruct rs as [| r rs]; [contradiction |]. inversion H as [| ? ? [d Hd] _]; subst.
    unfold time_diff in Hd. destruct (to_datetime date) as [t |]; [eauto | discriminate]. }
  destruct T as [t T]. rewrite T. cbn [bind].
  assert (S : exists stamps, map_result (fun r => to_datetime (row_datetime r)) rs = Ok stamps
                             /\ Forall (fun u => exists d, sub_timestamps t u = Ok d) stamps).
  { clear Hne. induction H as [| r rs [d Hd] _ (stamps & IH1 & IH2)]; cbn.
    - exists []. split; [reflexivity | constructor].
    - unfold time_diff in Hd. rewrite T in Hd. cbn [bind] in Hd.
      destruct (to_datetime (row_datetime r)) as [u |] eqn:U; cbn [bind] in Hd; [| discriminate].
      exists (u :: stamps). rewrite IH1. split; [reflexivity |].
      constructor; [exists d; exact Hd | exact IH2]. }
  destruct S as (stamps & S1 & S2). rewrite S1. cbn [bind].
  destruct (map_result_total _ _ S2) as [diffs D]. rewrite D. cbn [bind]. eauto.
Qed.

Lemma Forall2_fst_map (date : string) (rs : list row) (xs : list (row * Z)) :
  Forall2 (fun r x => fst x = r /\ time_diff date r = Ok (snd x)) rs xs ->
  map fst xs = rs /\ Forall (fun x => time_diff date (fst x) = Ok (snd x)) xs.
Proof.
  induction 1 as [| r x rs xs [H1 H2] _ [IH1 IH2]]; cbn.
  - split; [reflexivity | constructor].
  - split; [rewrite H1, IH1; reflexivity |].
    constructor; [rewrite H1; exact H2 | exact IH2].
Qed.

(** ** The sort *)

Lemma insert_by_time_diff_not_nil (x : row * Z) (l : list (row * Z)) :
  insert_by_time_diff x l <> [].
Proof. destruct l as [| y t]; cbn; [| destruct (snd x <=? snd y)]; discriminate. Qed.

(** The first record after the sort is the first of the records with the
    least [time_diff]: those before it in the frame have a larger one. *)
Lemma sort_values_head (l : list (row * Z)) (x : row * Z) (rest : list (row * Z)) :
  sort_values l = x :: rest ->
  exists l1 l2, l = (l1 ++ x :: l2)%list /\
                (forall y, In y l1 -> snd x < snd y) /\
                (forall y, In y l2 -> snd x <= snd y).
Proof.
  revert x rest. induction l as [| a t IH]; intros x rest H; cbn in H; [discriminate |].
  destruct (sort_values t) as [| h rest'] eqn:St.
  - destruct t as [| b t']; [| cbn in St; destruct (insert_by_time_diff_not_nil _ _ St)].
    cbn in H. inversion H; subst. exists [], []. repeat split; intros y [].
  - destruct (IH h rest' eq_refl) as (l1 & l2 & Ht & H1 & H2).
    cbn in H. destruct (Z.leb_spec (snd a) (snd h)) as [L | L]; inversion H; subst.
    + exists [], (l1 ++ h :: l2)%list. repeat split; [intros y [] |].
      intros y Hy. apply in_app_or in Hy. destruct Hy as [Hy | [<- | Hy]].
      * specialize (H1 y Hy). lia.
      * exact L.
      * specialize (H2 y Hy). lia.
    + exists (a :: l1), l2. repeat split; [| exact H2].
      intros y [<- | Hy]; [lia | apply H1; exact Hy].
Qed.

Lemma sort_values_nil (l : list (row * Z)) : sort_values l = [] -> l = [].
Proof.
  destruct l as [| a t]; [reflexivity |]. cbn. intros H.
  destruct (insert_by_time_diff_not_nil _ _ H).
Qed.

(** ** What the selector computes *)

(** On a list with a scene in it the four columns exist, and the selector
    is the filter, the sort and the choice of the first record. *)
Lemma select_best_item_unfold (items : list item) (date : string) (latitude longitude : float) :
  items <> [] ->
  select_best_item items date latitude longitude =
  match filter (contains_sample_point latitude longitude) (map item_record items) with
  | [] => Ok nan_triple
  | r :: rs =>
      xs <- add_time_diff date (r :: rs) ;;
      match sort_values (sentinel_if_any xs) with
      | [] => Raise IndexError
      | b :: _ => Ok (best (item_obj (fst b)) (row_platform (fst b)) (row_datetime (fst b)))
      end
  end.
Proof.
  intros Hne. destruct items as [| i rest]; [contradiction |].
  unfold select_best_item. cbn [map DataFrame rows columns].
  change (getattr _ "min_lat") with (@Ok unit tt).
  change (getattr _ "max_lat") with (@Ok unit tt).
  change (getattr _ "min_long") with (@Ok unit tt).
  change (getattr _ "max_long") with (@Ok unit tt).
  cbn [bind].
  destruct (filter _ (item_record i :: map item_record rest)) as [| r rs]; reflexivity.
Qed.

(** The records of the frame are the records of the scenes. *)
Lemma filter_item_records (f : row -> bool) (items : list item) (r : row) :
  In r (filter f (map item_record items)) ->
  f r = true /\ In (item_obj r) items /\ r = item_record (item_obj r).
Proof.
  intros H. apply filter_In in H. destruct H as [H F].
  apply in_map_iff in H. destruct H as (it & <- & Hit).
  repeat split; [exact F | exact Hit].
Qed.

(** The pool the choice is made from: the Sentinel records when there is
    one, else all.  It is never empty when the frame is not. *)
Lemma pool_not_nil (xs : list (row * Z)) :
  xs <> [] -> sentinel_if_any xs <> [].
Proof.
  intros Hne. unfold sentinel_if_any.
  destruct (existsb _ xs) eqn:E; [| exact Hne].
  apply existsb_exists in E. destruct E as (x & Hx & Sx).
  intros N. assert (I : In x (filter (fun x => sentinel (fst x)) xs))
    by (apply filter_In; split; assumption).
  rewrite N in I. destruct I.
Qed.

(** A scene that is returned is the first, in the order of the input, of
    the records of the pool with the least [time_diff]. *)
Lemma select_best_item_best (items : list item) (date : string) (latitude longitude : float)
    (it : item) (p d : string) :
  select_best_item items date latitude longitude = Ok (best it p d) ->
  exists xs x l1 l2,
    add_time_diff date (filter (contains_sample_point latitude longitude)
                          (map item_record items)) = Ok xs /\
    sentinel_if_any xs = (l1 ++ x :: l2)%list /\
    (forall y, In y l1 -> snd x < snd y) /\
    (forall y, In y l2 -> snd x <= snd y) /\
    it = item_obj (fst x) /\ p = row_platform (fst x) /\ d = row_datetime (fst x).
Proof.
  intros H. destruct items as [| i rest]; [discriminate H |].
  rewrite select_best_item_unfold in H by discriminate.
  destruct (filter _ (map item_record (i :: rest))) as [| r rs]; [discriminate H |].
  destruct (add_time_diff date (r :: rs)) as [xs |]; cbn [bind] in H; [| discriminate H].
  destruct (sort_values _) as [| b tl] eqn:S; [discriminate H |].
  inversion H; subst. clear H.
  destruct (sort_values_head _ _ _ S) as (l1 & l2 & E & H1 & H2).
  exists xs, b, l1, l2. repeat split; assumption.
Qed.

(** When a scene contains the point and the dates can be read, a scene is
    returned. *)
Lemma select_best_item_total (items : list item) (date : string) (latitude longitude : float) :
  filter (contains_sample_point latitude longitude) (map item_record items) <> [] ->
  Forall (fun r => exists d, time_diff date r = Ok d)
         (filter (contains_sample_point latitude longitude) (map item_record items)) ->
  exists it p d, select_best_item items date latitude longitude = Ok (best it p d).
Proof.
  intros Hne Hd.
  assert (Hi : items <> []) by (intros ->; apply Hne; reflexivity).
  rewrite select_best_item_unfold by exact Hi.
  destruct (add_time_diff_total date _ Hne Hd) as [xs Hxs].
  destruct (filter _ (map item_record items)) as [| r rs] eqn:F; [contradiction |].
  rewrite Hxs. cbn [bind].
  assert (Hx : xs <> []).
  { apply add_time_diff_ok in Hxs. inversion Hxs. discriminate. }
  destruct (sort_values _) as [| b tl] eqn:S.
  - apply sort_values_nil in S. destruct (pool_not_nil xs Hx S).
  - eauto.
Qed.

(** ** No scene contains the point (C3) *)

(** C3, as stated, fails on the empty list: the frame built from no record
    has no column, and reading [min_lat] raises. *)
Lemma select_best_item_empty_list_raises :
  select_best_item [] "2022-08-31" (-7.5)%float 107.5%float
  = Raise AttributeError.
Proof. reflexivity. Qed.

(** C3, amended: for every list with at least one candidate, none of which
    strictly contains the point, the selector answers the triple of [nan]
    ("no match") and does not raise, whatever the date text is. *)
Theorem no_match_when_no_scene_contains_point
    (items : list item) (date : string) (latitude longitude : float) :
  items <> [] ->
  (forall c, In c items -> contains_sample_point latitude longitude (item_record c) = false) ->
  select_best_item items date latitude longitude = Ok nan_triple.
Proof.
  intros Hne Hout. rewrite select_best_item_unfold by exact Hne.
  destruct (filter _ (map item_record items)) as [| r rs] eqn:F; [reflexivity |].
  assert (I : In r (filter (contains_sample_point latitude longitude) (map item_record items)))
    by (rewrite F; left; reflexivity).
  apply filter_item_records in I. destruct I as (C & Iit & E).
  rewrite E, (Hout _ Iit) in C. discriminate C.
Qed.

(** A scene over western Java and a point south of it. *)
Lemma no_match_when_no_scene_contains_point_witness :
  select_best_item [scene "S" "Sentinel-2A" 2022 8 30 2] "2022-08-31" (-9)%float 107.5%float
  = Ok nan_triple.
Proof.
  apply no_match_when_no_scene_contains_point.
  - discriminate.
  - intros c [<- | []]. reflexivity.
Defined.

(** ** Strict containment (C6) *)

Lemma on_edge_not_contained (latitude longitude : float) (r : row) :
  on_edge latitude longitude r = true -> contains_sample_point latitude longitude r = false.
Proof.
  unfold on_edge, contains_sample_point. intros H.
  repeat (apply orb_true_iff in H; destruct H as [H | H]);
    apply eqb_not_ltb in H; destruct H as [H1 H2]; rewrite ?H1, ?H2;
    repeat rewrite ?andb_false_r, ?andb_false_l; reflexivity.
Qed.

Lemma filter_drops (f : row -> bool) (l1 l2 : list item) (c : item) :
  f (item_record c) = false ->
  filter f (map item_record (l1 ++ c :: l2)) = filter f (map item_record (l1 ++ l2)).
Proof.
  intros H. rewrite !map_app, !filter_app. cbn [map filter]. rewrite H. reflexivity.
Qed.

(** C6: the containment test is the conjunction of four strict comparisons,
    so a candidate with the point on an edge of its box does not pass it:
    alone it gives "no match", and beside other candidates the selector
    answers as if it were not in the list. *)
Theorem containment_is_strict (c : item) (latitude longitude : float) :
  (contains_sample_point latitude longitude (item_record c) = true <->
     PrimFloat.ltb (bbox_1 (item_bbox c)) latitude = true /\
     PrimFloat.ltb latitude (bbox_3 (item_bbox c)) = true /\
     PrimFloat.ltb (bbox_0 (item_bbox c)) longitude = true /\
     PrimFloat.ltb longitude (bbox_2 (item_bbox c)) = true) /\
  (on_edge latitude longitude (item_record c) = true ->
     contains_sample_point latitude longitude (item_record c) = false /\
     (forall date, select_best_item [c] date latitude longitude = Ok nan_triple) /\
     (forall l1 l2 date, (l1 ++ l2)%list <> [] ->
        select_best_item (l1 ++ c :: l2) date latitude longitude
        = select_best_item (l1 ++ l2) date latitude longitude)).
Proof.
  split.
  - unfold contains_sample_point. cbn [item_record min_lat max_lat min_long max_long].
    rewrite !andb_true_iff. tauto.
  - intros E. pose proof (on_edge_not_contained _ _ _ E) as N.
    split; [exact N | split].
    + intros date. rewrite select_best_item_unfold by discriminate.
      cbn [map filter]. rewrite N. reflexivity.
    + intros l1 l2 date Hne.
      rewrite !select_best_item_unfold;
        [ | exact Hne | destruct l1; discriminate ].
      rewrite (filter_drops _ l1 l2 c N). reflexivity.
Qed.

(** A point on the northern edge of the box, and one on its western edge. *)
Lemma containment_is_strict_witness :
  on_edge (-7)%float 107.5%float (item_record (scene "S" "Sentinel-2A" 2022 8 30 2)) = true /\
  contains_sample_point (-7)%float 107.5%float
    (item_record (scene "S" "Sentinel-2A" 2022 8 30 2)) = false /\
  select_best_item [scene "S" "Sentinel-2A" 2022 8 30 2] "2022-08-31" (-7.5)%float 107%float
  = Ok nan_triple.
Proof.
  split; [reflexivity | split].
  - apply (proj2 (containment_is_strict (scene "S" "Sentinel-2A" 2022 8 30 2)
                    (-7)%float 107.5%float)). reflexivity.
  - apply (proj2 (containment_is_strict (scene "S" "Sentinel-2A" 2022 8 30 2)
                    (-7.5)%float 107%float)). reflexivity.
Defined.

(** ** Sentinel first (C7) *)

Lemma in_pool (xs : list (row * Z)) (x : row * Z) :
  In x (sentinel_if_any xs) ->
  In x xs /\ (existsb (fun x => sentinel (fst x)) xs = true -> sentinel (fst x) = true).
Proof.
  unfold sentinel_if_any. destruct (existsb _ xs) eqn:E; intros H.
  - apply filter_In in H. destruct H as [H S]. split; [exact H | intros _; exact S].
  - split; [exact H | discriminate].
Qed.

Lemma in_frame (date : string) (rs : list row) (xs : list (row * Z)) :
  add_time_diff date rs = Ok xs ->
  (forall x, In x xs -> In (fst x) rs /\ time_diff date (fst x) = Ok (snd x)) /\
  (forall r, In r rs -> exists d, In (r, d) xs).
Proof.
  intros H. apply add_time_diff_ok in H. split.
  - apply Forall2_fst_map in H. destruct H as [M F]. intros x Hx. split.
    + rewrite <- M. apply in_map. exact Hx.
    + rewrite Forall_forall in F. apply F. exact Hx.
  - induction H as [| r0 x rs xs [H1 H2] _ IH]; intros r Hr; [destruct Hr |].
    destruct Hr as [<- | Hr].
    + exists (snd x). left. rewrite <- H1. destruct x; reflexivity.
    + destruct (IH r Hr) as [d Hd]. exists d. right. exact Hd.
Qed.

(** With a record in the frame the selector does not answer "no match". *)
Lemma select_best_item_not_nan (items : list item) (date : string)
    (latitude longitude : float) (sel : selection) :
  filter (contains_sample_point latitude longitude) (map item_record items) <> [] ->
  select_best_item items date latitude longitude = Ok sel ->
  exists it p d, sel = best it p d.
Proof.
  intros Hne Sel.
  assert (Hi : items <> []) by (intros ->; apply Hne; reflexivity).
  rewrite select_best_item_unfold in Sel by exact Hi.
  destruct (filter _ (map item_record items)) as [| r rs]; [contradiction |].
  destruct (add_time_diff date (r :: rs)) as [xs |]; cbn [bind] in Sel; [| discriminate Sel].
  destruct (sort_values _) as [| b tl]; [discriminate Sel |].
  inversion Sel. eauto.
Qed.

(** C7: when a candidate whose platform name contains "sentinel", in any
    case of the letters, strictly contains the point, whatever the selector
    returns is a scene of the list that contains the point and is a Sentinel
    scene, and its [time_diff] is the least among the Sentinel candidates
    that contain the point: the other platforms have no part in the choice.
    And it does return a scene, when the dates of the candidates that
    contain the point can be read. *)
Theorem sentinel_is_preferred
    (items : list item) (date : string) (latitude longitude : float) :
  (exists c, In c items /\
             contains_sample_point latitude longitude (item_record c) = true /\
             sentinel (item_record c) = true) ->
  (forall sel,
      select_best_item items date latitude longitude = Ok sel ->
      exists it d,
        sel = best it (platform it) (strftime (datetime it)) /\
        In it items /\
        contains_sample_point latitude longitude (item_record it) = true /\
        contains (lower (platform it)) "sentinel" = true /\
        time_diff date (item_record it) = Ok d /\
        (forall c dc, In c items ->
                      contains_sample_point latitude longitude (item_record c) = true ->
                      sentinel (item_record c) = true ->
                      time_diff date (item_record c) = Ok dc -> d <= dc)) /\
  ((forall c, In c items ->
              contains_sample_point latitude longitude (item_record c) = true ->
              exists d, time_diff date (item_record c) = Ok d) ->
   exists sel, select_best_item items date latitude longitude = Ok sel).
Proof.
  intros (c0 & Ic0 & Cc0 & Sc0).
  set (rs := filter (contains_sample_point latitude longitude) (map item_record items)).
  assert (Irs : In (item_record c0) rs).
  { apply filter_In. split; [apply in_map; exact Ic0 | exact Cc0]. }
  assert (Hne : rs <> []) by (intros N; rewrite N in Irs; destruct Irs).
  split.
  - intros sel Sel.
    destruct (select_best_item_not_nan _ _ _ _ _ Hne Sel) as (it & p & d & ->).
    destruct (select_best_item_best _ _ _ _ _ _ _ Sel)
      as (xs & x & l1 & l2 & Hxs & Hpool & H1 & H2 & -> & -> & ->).
    fold rs in Hxs. destruct (in_frame _ _ _ Hxs) as [Fx Fr].
    assert (Px : In x (sentinel_if_any xs))
      by (rewrite Hpool; apply in_or_app; right; left; reflexivity).
    destruct (in_pool _ _ Px) as [Ix Sx].
    destruct (Fx x Ix) as [Irx Tx].
    apply filter_item_records in Irx. destruct Irx as (Cx & Iit & Ex).
    assert (Any : existsb (fun x => sentinel (fst x)) xs = true).
    { destruct (Fr _ Irs) as [d0 Hd0]. apply existsb_exists.
      exists (item_record c0, d0). split; [exact Hd0 | exact Sc0]. }
    exists (item_obj (fst x)), (snd x).
    rewrite <- Ex in *.
    assert (Er : row_platform (fst x) = platform (item_obj (fst x)))
      by (rewrite Ex; reflexivity).
    assert (Ed : row_datetime (fst x) = strftime (datetime (item_obj (fst x))))
      by (rewrite Ex; reflexivity).
    rewrite Er, Ed.
    repeat split; try assumption.
    + rewrite <- Er. apply Sx. exact Any.
    + intros c dc Ic Cc Sc Tc.
      assert (Ic' : In (item_record c) rs)
        by (apply filter_In; split; [apply in_map; exact Ic | exact Cc]).
      destruct (Fr _ Ic') as [d' Hd'].
      destruct (Fx _ Hd') as [_ Td']. cbn [fst snd] in Td'.
      rewrite Tc in Td'. inversion Td'; subst d'.
      assert (Pc : In (item_record c, dc) (sentinel_if_any xs)).
      { unfold sentinel_if_any. rewrite Any.
        apply filter_In. split; [exact Hd' | exact Sc]. }
      rewrite Hpool in Pc. apply in_app_or in Pc. destruct Pc as [Pc | [Pc | Pc]].
      * specialize (H1 _ Pc). cbn [snd] in H1. lia.
      * rewrite Pc. cbn [snd]. lia.
      * specialize (H2 _ Pc). cbn [snd] in H2. exact H2.
  - intros Hdates.
    assert (Hd : Forall (fun r => exists d, time_diff date r = Ok d) rs).
    { apply Forall_forall. intros r Hr. apply filter_item_records in Hr.
      destruct Hr as (C & I & E). rewrite E. apply Hdates; [exact I | rewrite <- E; exact C]. }
    destruct (select_best_item_total items date latitude longitude Hne Hd)
      as (it & p & d & Sel).
    eauto.
Qed.

(** A Landsat scene of the sample day and a Sentinel scene ten days older:
    the Sentinel scene is returned. *)
Lemma sentinel_is_preferred_witness :
  select_best_item [scene "L" "landsat-8" 2022 8 31 2; scene "S" "Sentinel-2A" 2022 8 21 2]
    "2022-08-31" (-7.5)%float 107.5%float
  = Ok (best (scene "S" "Sentinel-2A" 2022 8 21 2) "Sentinel-2A" "2022-08-21") /\
  exists sel,
    select_best_item [scene "L" "landsat-8" 2022 8 31 2; scene "S" "Sentinel-2A" 2022 8 21 2]
      "2022-08-31" (-7.5)%float 107.5%float = Ok sel.
Proof.
  split; [reflexivity |].
  apply (sentinel_is_preferred
           [scene "L" "landsat-8" 2022 8 31 2; scene "S" "Sentinel-2A" 2022 8 21 2]
           "2022-08-31" (-7.5)%float 107.5%float).
  - exists (scene "S" "Sentinel-2A" 2022 8 21 2).
    split; [right; left; reflexivity | split; reflexivity].
  - intros c [<- | [<- | []]] _; eexists; vm_compute; reflexivity.
Defined.

(** The example of the specification: A (Sentinel, two days before the
    sample, contains the point), B (Landsat, the sample day, contains the
    point), C (Sentinel, five days before, does not contain the point). *)
Example select_best_item_documented_example :
  select_best_item
    [ scene "A" "Sentinel-2A" 2022 8 29 2;
      scene "B" "landsat-8" 2022 8 31 2;
      mkitem "C" (mkdatetime (mkdate 2022 8 26) 2 30 0 0) "Sentinel-2B"
             (mkbbox 108%float (-8)%float 109%float (-7)%float) ]
    "2022-08-31" (-7.5)%float 107.5%float
  = Ok (best (scene "A" "Sentinel-2A" 2022 8 29 2) "Sentinel-2A" "2022-08-29").
Proof. reflexivity. Qed.

(** ** Day granularity (C10) *)

(** C10: the record of a scene keeps the date of its acquisition, printed
    as [%Y-%m-%d], and nothing of the time of day; [time_diff] is computed
    from that text.  So in the frame of the selector two candidates acquired
    on the same calendar day have the same date text and the same
    [time_diff], whatever their times of day. *)
Theorem time_diff_ignores_time_of_day
    (items : list item) (date : string) (latitude longitude : float)
    (xs : list (row * Z)) (x y : row * Z) :
  add_time_diff date
    (filter (contains_sample_point latitude longitude) (map item_record items)) = Ok xs ->
  In x xs -> In y xs ->
  dt_date (datetime (item_obj (fst x))) = dt_date (datetime (item_obj (fst y))) ->
  row_datetime (fst x) = strftime_ymd (dt_date (datetime (item_obj (fst x)))) /\
  row_datetime (fst x) = row_datetime (fst y) /\
  snd x = snd y.
Proof.
  intros Hxs Ix Iy Same.
  destruct (in_frame _ _ _ Hxs) as [F _].
  destruct (F x Ix) as [Rx Tx]. destruct (F y Iy) as [Ry Ty].
  apply filter_item_records in Rx. destruct Rx as (_ & _ & Ex).
  apply filter_item_records in Ry. destruct Ry as (_ & _ & Ey).
  assert (Dx : row_datetime (fst x) = strftime_ymd (dt_date (datetime (item_obj (fst x)))))
    by (rewrite Ex at 1; reflexivity).
  assert (Dy : row_datetime (fst y) = strftime_ymd (dt_date (datetime (item_obj (fst y)))))
    by (rewrite Ey at 1; reflexivity).
  assert (D : row_datetime (fst x) = row_datetime (fst y)) by (rewrite Dx, Dy, Same; reflexivity).
  repeat split; [exact Dx | exact D |].
  unfold time_diff in Tx, Ty. rewrite D in Tx. rewrite Tx in Ty.
  inversion Ty. reflexivity.
Qed.

(** Two scenes of 2022-08-30, acquired at 02:30 and at 23:30: one day
    before the sample date, both. *)
Lemma time_diff_ignores_time_of_day_witness :
  exists xs,
    add_time_diff "2022-08-31"
      (filter (contains_sample_point (-7.5)%float 107.5%float)
         (map item_record
            [scene "S1" "Sentinel-2A" 2022 8 30 2; scene "S2" "Sentinel-2B" 2022 8 30 23]))
    = Ok xs /\
    map snd xs = [1 * ns_per_day; 1 * ns_per_day] /\
    (forall x y, In x xs -> In y xs ->
                 row_datetime (fst x) = row_datetime (fst y) /\ snd x = snd y).
Proof.
  eexists. split; [vm_compute; reflexivity | split; [reflexivity |]].
  intros x y Hx Hy.
  refine (proj2 (time_diff_ignores_time_of_day
                   [scene "S1" "Sentinel-2A" 2022 8 30 2; scene "S2" "Sentinel-2B" 2022 8 30 23]
                   "2022-08-31" (-7.5)%float 107.5%float _ x y _ Hx Hy _)).
  - vm_compute. reflexivity.
  - destruct Hx as [<- | [<- | []]]; destruct Hy as [<- | [<- | []]]; reflexivity.
Defined.

(** ** Closest in time (C1, C4) *)

(** The scene returned has the least [time_diff] of the pool, and
    [time_diff] is the sample date minus the date of the scene: a signed
    number, negative for a scene acquired after the sample date. *)
Lemma select_best_item_least_time_diff
    (items : list item) (date : string) (latitude longitude : float)
    (it : item) (p d : string) :
  select_best_item items date latitude longitude = Ok (best it p d) ->
  exists xs x,
    add_time_diff date (filter (contains_sample_point latitude longitude)
                          (map item_record items)) = Ok xs /\
    In x (sentinel_if_any xs) /\
    it = item_obj (fst x) /\
    (forall y, In y (sentinel_if_any xs) -> snd x <= snd y).
Proof.
  intros Sel.
  destruct (select_best_item_best _ _ _ _ _ _ _ Sel)
    as (xs & x & l1 & l2 & Hxs & Hpool & H1 & H2 & Hit & _ & _).
  exists xs, x. rewrite Hpool. repeat split; try assumption.
  - apply in_or_app. right. left. reflexivity.
  - intros y Hy. apply in_app_or in Hy. destruct Hy as [Hy | [<- | Hy]].
    + specialize (H1 y Hy). lia.
    + lia.
    + apply H2. exact Hy.
Qed.

(** When no candidate of the pool is acquired after the sample date, the
    least [time_diff] is the least distance in time. *)
Lemma closest_when_no_scene_is_later
    (items : list item) (date : string) (latitude longitude : float)
    (it : item) (p d : string) :
  select_best_item items date latitude longitude = Ok (best it p d) ->
  exists xs x,
    add_time_diff date (filter (contains_sample_point latitude longitude)
                          (map item_record items)) = Ok xs /\
    it = item_obj (fst x) /\
    ((forall y, In y xs -> 0 <= snd y) ->
     forall y, In y (sentinel_if_any xs) -> Z.abs (snd x) <= Z.abs (snd y)).
Proof.
  intros Sel.
  destruct (select_best_item_least_time_diff _ _ _ _ _ _ _ Sel)
    as (xs & x & Hxs & Ix & Hit & Least).
  exists xs, x. repeat split; try assumption.
  intros Pos y Hy.
  pose proof (Least y Hy). pose proof (Pos y (proj1 (in_pool _ _ Hy))).
  pose proof (Pos x (proj1 (in_pool _ _ Ix))). lia.
Qed.

(** C1 at a failing input: scene A is acquired one day before the sample
    date and scene B ten days after it; both are Sentinel scenes that
    contain the point.  The selector returns B, in either order of the list:
    the difference it sorts by is signed, ten days after counts as -10. *)
Theorem later_scene_beats_closer_scene :
  time_diff "2022-08-31" (item_record (scene "A" "Sentinel-2A" 2022 8 30 2))
  = Ok (1 * ns_per_day) /\
  time_diff "2022-08-31" (item_record (scene "B" "Sentinel-2B" 2022 9 10 2))
  = Ok (-10 * ns_per_day) /\
  select_best_item [scene "A" "Sentinel-2A" 2022 8 30 2; scene "B" "Sentinel-2B" 2022 9 10 2]
    "2022-08-31" (-7.5)%float 107.5%float
  = Ok (best (scene "B" "Sentinel-2B" 2022 9 10 2) "Sentinel-2B" "2022-09-10") /\
  select_best_item [scene "B" "Sentinel-2B" 2022 9 10 2; scene "A" "Sentinel-2A" 2022 8 30 2]
    "2022-08-31" (-7.5)%float 107.5%float
  = Ok (best (scene "B" "Sentinel-2B" 2022 9 10 2) "Sentinel-2B" "2022-09-10").
Proof.
  repeat split; vm_compute; reflexivity.
Qed.

(** C4 at a failing input: scene A is acquired two days before the sample
    date, scene B two days after it, so they are tied at a distance of two
    days, and A comes first in the list.  The selector returns B. *)
Theorem tie_across_the_sample_date_goes_to_the_later_scene :
  time_diff "2022-08-31" (item_record (scene "A" "Sentinel-2A" 2022 8 29 2))
  = Ok (2 * ns_per_day) /\
  time_diff "2022-08-31" (item_record (scene "B" "Sentinel-2B" 2022 9 2 2))
  = Ok (-2 * ns_per_day) /\
  select_best_item [scene "A" "Sentinel-2A" 2022 8 29 2; scene "B" "Sentinel-2B" 2022 9 2 2]
    "2022-08-31" (-7.5)%float 107.5%float
  = Ok (best (scene "B" "Sentinel-2B" 2022 9 2 2) "Sentinel-2B" "2022-09-02").
Proof.
  repeat split; vm_compute; reflexivity.
Qed.

(** Two scenes of the same day are tied in [time_diff] too, and there the
    first of the list is returned. *)
Example same_day_tie_goes_to_the_first :
  select_best_item [scene "A" "Sentinel-2A" 2022 8 29 2; scene "B" "Sentinel-2B" 2022 8 29 23]
    "2022-08-31" (-7.5)%float 107.5%float
  = Ok (best (scene "A" "Sentinel-2A" 2022 8 29 2) "Sentinel-2A" "2022-08-29") /\
  select_best_item [scene "B" "Sentinel-2B" 2022 8 29 23; scene "A" "Sentinel-2A" 2022 8 29 2]
    "2022-08-31" (-7.5)%float 107.5%float
  = Ok (best (scene "B" "Sentinel-2B" 2022 8 29 23) "Sentinel-2B" "2022-08-29").
Proof.
  split; vm_compute; reflexivity.
Qed.

(** ** The batch driver (C2, C9) *)

Section DriverFacts.

Context {image : Type}.
Variable w : world image.

(** C2 where it fails: a location for which the catalog search returns no
    item is not skipped.  The branch of line 174 does nothing and the loop
    body goes on to line 181 with the names [best_item] and [item_platform]
    as they were: unbound on the first location, which raises
    [UnboundLocalError]; else holding the scene of an earlier location,
    which is cropped to this location's box and written under this
    location's file name. *)
Theorem empty_search_result_is_not_skipped
    (r : location) (bound : option selection) (b1 b2 : bbox) (dr : string) :
  get_bounding_box w (latitude r) (longitude r) 50000 = Ok b1 ->
  get_date_range (date r) 30 = Ok dr ->
  search w ["sentinel-2-l2a"; "landsat-c2-l2"] b1 dr = Ok [] ->
  get_bounding_box w (latitude r) (longitude r) 500 = Ok b2 ->
  match bound with
  | None => process_location w r bound = Raise UnboundLocalError
  | Some nan_triple => process_location w r bound = Raise AttributeError
  | Some (best it p d) =>
      forall img img',
        (if contains (lower p) "sentinel"
         then crop_sentinel_image w it b2 else crop_landsat_image w it b2) = Ok img ->
        transpose w img = Ok img' ->
        imwrite w (image_array_pth r) img' = Ok true ->
        process_location w r bound = Ok (bound, [(image_array_pth r, img')])
  end.
Proof.
  intros B1 DR S B2. unfold process_location.
  rewrite B1. cbn [bind]. rewrite DR. cbn [bind]. rewrite S. cbn [bind].
  change (Z.of_nat (List.length (@nil item)) =? 0) with true. cbn iota. cbn [bind].
  rewrite B2. cbn [bind].
  destruct bound as [[| it p d] |]; try reflexivity.
  intros img img' C T W. rewrite C. cbn [bind]. rewrite T. cbn [bind]. rewrite W. reflexivity.
Qed.

(** X14: when the catalog has scenes and none contains the point, the selector
    answers the triple of [nan], and line 181 asks a float for [lower]: the
    location is not skipped either, the run ends with [AttributeError]. *)
Lemma no_match_raises_in_the_driver
    (r : location) (bound : option selection) (b1 b2 : bbox) (dr : string)
    (items : list item) :
  get_bounding_box w (latitude r) (longitude r) 50000 = Ok b1 ->
  get_date_range (date r) 30 = Ok dr ->
  search w ["sentinel-2-l2a"; "landsat-c2-l2"] b1 dr = Ok items ->
  items <> [] ->
  select_best_item items (date r) (latitude r) (longitude r) = Ok nan_triple ->
  get_bounding_box w (latitude r) (longitude r) 500 = Ok b2 ->
  process_location w r bound = Raise AttributeError.
Proof.
  intros B1 DR S Hne Sel B2. unfold process_location.
  rewrite B1. cbn [bind]. rewrite DR. cbn [bind]. rewrite S. cbn [bind].
  destruct items as [| i rest]; [contradiction |].
  destruct (Z.eqb_spec (Z.of_nat (List.length (i :: rest))) 0) as [E | _];
    [cbn [List.length] in E; lia |].
  rewrite Sel. cbn [bind]. rewrite B2. reflexivity.
Qed.

(** The loop body writes at most one file, under the name of its record. *)
Lemma process_location_written (r : location) (bound bound1 : option selection)
    (written : files) :
  process_location w r bound = Ok (bound1, written) ->
  written = [] \/ exists img, written = [(image_array_pth r, img)].
Proof.
  unfold process_location. intros P.
  repeat match type of P with
         | bind ?c _ = Ok _ => destruct c; cbn [bind] in P; [| discriminate P]
         | match ?c with _ => _ end = Ok _ => destruct c; try discriminate P
         end;
    inversion P; subst;
    match goal with |- context [if ?b then _ else _] => destruct b end; eauto.
Qed.

Lemma for_each_row_app (rs1 rs2 : list location) (bound bound1 : option selection)
    (out out1 : files) :
  loop_reaches w rs1 bound out bound1 out1 ->
  for_each_row w (rs1 ++ rs2) bound out = for_each_row w rs2 bound1 out1.
Proof.
  induction 1 as [| r rs bound bound1 bound' out written out' P _ IH]; [reflexivity |].
  cbn [app for_each_row]. rewrite P. exact IH.
Qed.

(** The files the loop adds are files of the records it went through. *)
Lemma loop_reaches_files (rs : list location) (bound bound1 : option selection)
    (out out1 : files) :
  loop_reaches w rs bound out bound1 out1 ->
  exists written, out1 = (out ++ written)%list /\
                  Forall (fun f => In (fst f) (map image_array_pth rs)) written.
Proof.
  induction 1 as [bound out | r rs bound bound1 bound' out written out' P _ IH].
  - exists []. split; [symmetry; apply app_nil_r | constructor].
  - destruct IH as (wr & -> & F). exists (written ++ wr)%list.
    split; [symmetry; apply app_assoc |].
    apply Forall_app. split.
    + destruct (process_location_written _ _ _ _ P) as [-> | [img ->]];
        [constructor | repeat constructor].
    + eapply Forall_impl; [| exact F]. intros f Hf. right. exact Hf.
Qed.

(** C9, amended: there is no handler in the driver.  When the loop has gone
    through the records [rs1] and the body raises on the next record, [main]
    ends with that exception; the files written for [rs1] are what the run
    leaves, and no record after that one is processed, whatever it is. *)
Theorem exception_ends_the_run
    (rs1 rs2 : list location) (r : location) (bound1 : option selection)
    (out1 : files) (e : exn) :
  makedirs w IMAGE_ARRAY_DIR = Ok tt ->
  client_open w = Ok tt ->
  d_metadata = (rs1 ++ r :: rs2)%list ->
  loop_reaches w rs1 None [] bound1 out1 ->
  process_location w r bound1 = Raise e ->
  main w = (out1, Raise e) /\
  Forall (fun f => In (fst f) (map image_array_pth rs1)) out1.
Proof.
  intros M C E L P. split.
  - unfold main. rewrite M, C, E.
    rewrite (for_each_row_app rs1 (r :: rs2) None bound1 [] out1 L).
    cbn [for_each_row]. rewrite P. reflexivity.
  - destruct (loop_reaches_files _ _ _ _ _ L) as (wr & -> & F). exact F.
Qed.

End DriverFacts.

(** With an empty catalog the first location already raises; with a scene
    for the first location only, the four others get a file made from it. *)
Lemma empty_search_result_is_not_skipped_witness :
  (process_location (toy_world empty_catalog) (row_at 0) None = Raise UnboundLocalError /\
   main (toy_world empty_catalog) = ([], Raise UnboundLocalError)) /\
  (process_location (toy_world jawa_catalog) (row_at 1)
     (Some (best (scene "S" "Sentinel-2A" 2022 8 30 2) "Sentinel-2A" "2022-08-30"))
   = Ok (Some (best (scene "S" "Sentinel-2A" 2022 8 30 2) "Sentinel-2A" "2022-08-30"),
         [(image_array_pth (row_at 1), "visual of S")]) /\
   main (toy_world jawa_catalog)
   = (map (fun r => (image_array_pth r, "visual of S")) d_metadata, Ok tt)).
Proof.
  split; split.
  - eapply (empty_search_result_is_not_skipped (toy_world empty_catalog) (row_at 0) None);
      reflexivity.
  - vm_compute. reflexivity.
  - eapply (empty_search_result_is_not_skipped (toy_world jawa_catalog) (row_at 1)
              (Some (best (scene "S" "Sentinel-2A" 2022 8 30 2) "Sentinel-2A" "2022-08-30")));
      reflexivity.
  - vm_compute. reflexivity.
Defined.

(** C9, as stated, fails: the catalog cannot be reached for the second
    location.  The run ends there with the exception and one file; the three
    later locations, which the same world serves without an exception, are
    not processed. *)
Lemma catalog_error_stops_the_batch :
  main (toy_world flaky_catalog)
  = ([(image_array_pth (row_at 0), "visual of S")],
     Raise (CollaboratorError "catalog unreachable")) /\
  for_each_row (toy_world flaky_catalog) [row_at 2; row_at 3; row_at 4] None []
  = ([(image_array_pth (row_at 2), "visual of S");
      (image_array_pth (row_at 3), "visual of S");
      (image_array_pth (row_at 4), "visual of S")], Ok tt).
Proof.
  split; vm_compute; reflexivity.
Qed.

Lemma exception_ends_the_run_witness :
  main (toy_world flaky_catalog)
  = ([(image_array_pth (row_at 0), "visual of S")],
     Raise (CollaboratorError "catalog unreachable")) /\
  Forall (fun f => In (fst f) (map image_array_pth [row_at 0]))
         [(image_array_pth (row_at 0), "visual of S")].
Proof.
  apply (exception_ends_the_run (toy_world flaky_catalog)
           [row_at 0] [row_at 2; row_at 3; row_at 4] (row_at 1)
           (Some (best (mkitem "S" (mkdatetime (mkdate 2022 8 30) 2 30 0 0) "Sentinel-2A"
                          (mkbbox (PrimFloat.sub (longitude (row_at 0)) 0.5%float)
                                  (PrimFloat.sub (latitude (row_at 0)) 0.5%float)
                                  (PrimFloat.add (longitude (row_at 0)) 0.5%float)
                                  (PrimFloat.add (latitude (row_at 0)) 0.5%float)))
                       "Sentinel-2A" "2022-08-30"))).
  - reflexivity.
  - reflexivity.
  - reflexivity.
  - eapply reaches_cons; [vm_compute; reflexivity | apply reaches_nil].
  - vm_compute. reflexivity.
Defined.

(** ** The Landsat rescaling (C8) *)

Lemma array_min_le (a : list Q) (x : Q) : In x a -> (array_min a <= x)%Q.
Proof.
  induction a as [| y t IH]; [intros [] |].
  intros [<- | I].
  - destruct t; [apply Qle_refl | apply Q.le_min_l].
  - destruct t as [| z t']; [destruct I |].
    change (array_min (y :: z :: t')) with (Qmin y (array_min (z :: t'))).
    eapply Qle_trans; [apply Q.le_min_r | apply IH; exact I].
Qed.

Lemma array_max_ge (a : list Q) (x : Q) : In x a -> (x <= array_max a)%Q.
Proof.
  induction a as [| y t IH]; [intros [] |].
  intros [<- | I].
  - destruct t; [apply Qle_refl | apply Q.le_max_l].
  - destruct t as [| z t']; [destruct I |].
    change (array_max (y :: z :: t')) with (Qmax y (array_max (z :: t'))).
    eapply Qle_trans; [apply IH; exact I | apply Q.le_max_r].
Qed.

(** A value between the two ends of a range that is not a single point is
    sent between 0 and 255. *)
Lemma rescale_bounds (lo hi x : Q) :
  (lo < hi)%Q -> (lo <= x)%Q -> (x <= hi)%Q ->
  (0 <= 0 + (x - lo) * (255 - 0) / (hi - lo))%Q /\
  (0 + (x - lo) * (255 - 0) / (hi - lo) <= 255)%Q.
Proof.
  intros L A B.
  assert (P : (0 < hi - lo)%Q) by lra.
  rewrite Qplus_0_l. split.
  - apply Qle_shift_div_l; [exact P | lra].
  - apply Qle_shift_div_r; [exact P | lra].
Qed.

(** C8: When the rescaling of line 75 is the min-max normalization the
    specification describes ([cv2_normalize] with the bounds 0 and 255) and
    the array fetched for a scene does not have a single value (its least
    value is below its greatest), the Landsat cropper returns an array, of as
    many values as the one fetched, all of which lie within [0, 255]. *)
Theorem landsat_crop_lies_within_0_255
    (w : world (list Q)) (it : item) (bounding_box : bbox) (fetched : list Q) :
  (forall a, normalize w a = Ok (cv2_normalize a 0 255)) ->
  stac_load w it bounding_box = Ok fetched ->
  (array_min fetched < array_max fetched)%Q ->
  exists image_array,
    crop_landsat_image w it bounding_box = Ok image_array /\
    List.length image_array = List.length fetched /\
    Forall (fun y => (0 <= y)%Q /\ (y <= 255)%Q) image_array.
Proof.
  intros N L D. exists (cv2_normalize fetched 0 255).
  unfold crop_landsat_image. rewrite L. cbn [bind]. rewrite N.
  split; [reflexivity |]. unfold cv2_normalize. split; [apply length_map |].
  apply Forall_forall. intros y I. apply in_map_iff in I.
  destruct I as (x & <- & Ix).
  apply rescale_bounds;
    [exact D | apply array_min_le; exact Ix | apply array_max_ge; exact Ix].
Qed.

(** A crop of six values, from 0 to 65535. *)
Lemma landsat_crop_lies_within_0_255_witness :
  exists image_array,
    crop_landsat_image landsat_world (scene "L" "landsat-8" 2022 8 30 2) box_jawa
    = Ok image_array /\
    List.length image_array = 6%nat /\
    Forall (fun y => (0 <= y)%Q /\ (y <= 255)%Q) image_array.
Proof.
  apply (landsat_crop_lies_within_0_255 landsat_world (scene "L" "landsat-8" 2022 8 30 2)
           box_jawa [7312#1; 8120#1; 65535#1; 0#1; 9001#2; 7312#1]%Q).
  - intros a. reflexivity.
  - reflexivity.
  - vm_compute. reflexivity.
Defined.

(** The least value of that crop becomes 0, the greatest 255, and a value
    half way between them 255/2. *)
Example cv2_normalize_example :
  Forall2 Qeq (cv2_normalize [0#1; 65535#2; 65535#1]%Q 0 255) [0#1; 255#2; 255#1]%Q.
Proof.
  repeat constructor; vm_compute; reflexivity.
Qed.

(** * More properties of the script *)

(** ** The selector: what is returned, and from which candidates *)

Lemma in_pool_iff (xs : list (row * Z)) (x : row * Z) :
  In x (sentinel_if_any xs) <->
  In x xs /\ (existsb (fun x => sentinel (fst x)) xs = true -> sentinel (fst x) = true).
Proof.
  split; [apply in_pool |]. intros [I S]. unfold sentinel_if_any.
  destruct (existsb _ xs) eqn:E; [| exact I].
  apply filter_In. split; [exact I | apply S; reflexivity].
Qed.

(** The frame has a Sentinel record exactly when a candidate that contains
    the point is a Sentinel scene. *)
Lemma frame_has_sentinel (items : list item) (date : string) (latitude longitude : float)
    (xs : list (row * Z)) :
  add_time_diff date (filter (contains_sample_point latitude longitude)
                        (map item_record items)) = Ok xs ->
  (existsb (fun x => sentinel (fst x)) xs = true <->
   exists c, In c items /\
             contains_sample_point latitude longitude (item_record c) = true /\
             sentinel (item_record c) = true).
Proof.
  intros Hxs. destruct (in_frame _ _ _ Hxs) as [Fx Fr]. split.
  - intros E. apply existsb_exists in E. destruct E as (x & Ix & Sx).
    destruct (Fx x Ix) as [Ir _]. apply filter_item_records in Ir.
    destruct Ir as (C & I & E). exists (item_obj (fst x)).
    rewrite <- E. repeat split; assumption.
  - intros (c & Ic & Cc & Sc).
    assert (Ir : In (item_record c)
                   (filter (contains_sample_point latitude longitude) (map item_record items)))
      by (apply filter_In; split; [apply in_map; exact Ic | exact Cc]).
    destruct (Fr _ Ir) as [d Hd]. apply existsb_exists.
    exists (item_record c, d). split; [exact Hd | exact Sc].
Qed.

(** The scene returned is a candidate of the pool, the platform and the
    date of the triple are its own, and no candidate of the pool has a
    smaller [time_diff]. *)
Lemma select_best_item_sound (items : list item) (date : string) (latitude longitude : float)
    (it : item) (p d : string) :
  select_best_item items date latitude longitude = Ok (best it p d) ->
  in_the_pool items latitude longitude it /\
  p = platform it /\ d = strftime (datetime it) /\
  exists dt, time_diff date (item_record it) = Ok dt /\
             forall c dc, in_the_pool items latitude longitude c ->
                          time_diff date (item_record c) = Ok dc -> dt <= dc.
Proof.
  intros Sel.
  destruct (select_best_item_best _ _ _ _ _ _ _ Sel)
    as (xs & x & l1 & l2 & Hxs & Hpool & H1 & H2 & -> & -> & ->).
  destruct (in_frame _ _ _ Hxs) as [Fx Fr].
  pose proof (frame_has_sentinel _ _ _ _ _ Hxs) as Any.
  assert (Px : In x (sentinel_if_any xs))
    by (rewrite Hpool; apply in_or_app; right; left; reflexivity).
  apply in_pool_iff in Px. destruct Px as [Ix Sx].
  destruct (Fx x Ix) as [Irx Tx].
  apply filter_item_records in Irx. destruct Irx as (Cx & Iit & Ex).
  rewrite <- Ex.
  split; [| split; [rewrite Ex at 1; reflexivity | split; [rewrite Ex at 1; reflexivity |]]].
  - unfold in_the_pool. rewrite <- Ex.
    split; [exact Iit | split; [exact Cx |]].
    intros S. apply Sx. apply Any. exact S.
  - exists (snd x). split; [exact Tx |].
    intros c dc (Ic & Cc & Sc) Tc.
    assert (Ic' : In (item_record c)
                    (filter (contains_sample_point latitude longitude) (map item_record items)))
      by (apply filter_In; split; [apply in_map; exact Ic | exact Cc]).
    destruct (Fr _ Ic') as [d' Hd'].
    destruct (Fx _ Hd') as [_ Td']. cbn [fst snd] in Td'.
    rewrite Tc in Td'. inversion Td'; subst d'.
    assert (Pc : In (item_record c, dc) (sentinel_if_any xs)).
    { apply in_pool_iff. split; [exact Hd' |]. intros E. apply Sc. apply Any. exact E. }
    rewrite Hpool in Pc. apply in_app_or in Pc. destruct Pc as [Pc | [Pc | Pc]].
    + specialize (H1 _ Pc). cbn [snd] in H1. lia.
    + rewrite Pc. cbn [snd]. lia.
    + specialize (H2 _ Pc). cbn [snd] in H2. exact H2.
Qed.

(** "No match" is answered only when no candidate contains the point. *)
Lemma select_best_item_nan (items : list item) (date : string) (latitude longitude : float) :
  select_best_item items date latitude longitude = Ok nan_triple ->
  forall c, In c items -> contains_sample_point latitude longitude (item_record c) = false.
Proof.
  intros Sel c Ic.
  destruct (contains_sample_point latitude longitude (item_record c)) eqn:C; [| reflexivity].
  assert (Hne : filter (contains_sample_point latitude longitude) (map item_record items) <> []).
  { intros N.
    assert (I : In (item_record c)
                  (filter (contains_sample_point latitude longitude) (map item_record items)))
      by (apply filter_In; split; [apply in_map; exact Ic | exact C]).
    rewrite N in I. destruct I. }
  destruct (select_best_item_not_nan _ _ _ _ _ Hne Sel) as (it & p & d & E). discriminate E.
Qed.

(** X1: The answer of the selector is "no match" only when no candidate
    contains the point; and a scene that is returned is one of the
    candidates, it strictly contains the point, and the platform name and
    the date text returned with it are its own. *)
Theorem selector_answer_is_a_candidate
    (items : list item) (date : string) (latitude longitude : float) (sel : selection) :
  select_best_item items date latitude longitude = Ok sel ->
  match sel with
  | nan_triple =>
      forall c, In c items ->
                contains_sample_point latitude longitude (item_record c) = false
  | best it p d =>
      In it items /\
      contains_sample_point latitude longitude (item_record it) = true /\
      p = platform it /\ d = strftime (datetime it)
  end.
Proof.
  intros Sel. destruct sel as [| it p d].
  - exact (select_best_item_nan _ _ _ _ Sel).
  - destruct (select_best_item_sound _ _ _ _ _ _ _ Sel) as ((I & C & _) & P & D & _).
    repeat split; assumption.
Qed.

Lemma selector_answer_is_a_candidate_witness :
  In (scene "S" "Sentinel-2A" 2022 8 21 2)
     [scene "L" "landsat-8" 2022 8 31 2; scene "S" "Sentinel-2A" 2022 8 21 2] /\
  contains_sample_point (-7.5)%float 107.5%float
    (item_record (scene "S" "Sentinel-2A" 2022 8 21 2)) = true /\
  "Sentinel-2A" = platform (scene "S" "Sentinel-2A" 2022 8 21 2) /\
  "2022-08-21" = strftime (datetime (scene "S" "Sentinel-2A" 2022 8 21 2)).
Proof.
  apply (selector_answer_is_a_candidate
           [scene "L" "landsat-8" 2022 8 31 2; scene "S" "Sentinel-2A" 2022 8 21 2]
           "2022-08-31" (-7.5)%float 107.5%float
           (best (scene "S" "Sentinel-2A" 2022 8 21 2) "Sentinel-2A" "2022-08-21")).
  vm_compute. reflexivity.
Defined.

(** X2: Without a Sentinel candidate that contains the point, every candidate
    that contains it takes part: the scene returned has the least
    [time_diff] of them all, and one is returned when their dates can be
    read. *)
Theorem without_sentinel_every_platform_takes_part
    (items : list item) (date : string) (latitude longitude : float) :
  (forall c, In c items ->
             contains_sample_point latitude longitude (item_record c) = true ->
             sentinel (item_record c) = false) ->
  (exists c, In c items /\
             contains_sample_point latitude longitude (item_record c) = true) ->
  (forall c, In c items ->
             contains_sample_point latitude longitude (item_record c) = true ->
             exists d, time_diff date (item_record c) = Ok d) ->
  exists it dt,
    select_best_item items date latitude longitude
    = Ok (best it (platform it) (strftime (datetime it))) /\
    In it items /\
    contains_sample_point latitude longitude (item_record it) = true /\
    time_diff date (item_record it) = Ok dt /\
    (forall c dc, In c items ->
                  contains_sample_point latitude longitude (item_record c) = true ->
                  time_diff date (item_record c) = Ok dc -> dt <= dc).
Proof.
  intros NoS (c0 & Ic0 & Cc0) Hdates.
  set (rs := filter (contains_sample_point latitude longitude) (map item_record items)).
  assert (Irs : In (item_record c0) rs)
    by (apply filter_In; split; [apply in_map; exact Ic0 | exact Cc0]).
  assert (Hne : rs <> []) by (intros N; rewrite N in Irs; destruct Irs).
  assert (Hd : Forall (fun r => exists d, time_diff date r = Ok d) rs).
  { apply Forall_forall. intros r Hr. apply filter_item_records in Hr.
    destruct Hr as (C & I & E). rewrite E. apply Hdates; [exact I | rewrite <- E; exact C]. }
  destruct (select_best_item_total items date latitude longitude Hne Hd) as (it & p & d & Sel).
  destruct (select_best_item_sound _ _ _ _ _ _ _ Sel)
    as ((I & C & _) & -> & -> & dt & T & Least).
  exists it, dt. repeat split; try assumption.
  intros c dc Ic Cc Tc. apply (Least c dc); [| exact Tc].
  repeat split; try assumption.
  intros (s & Is & Cs & Ss). rewrite (NoS s Is Cs) in Ss. discriminate Ss.
Qed.

(** Two Landsat scenes, nine days and one day before the sample date. *)
Lemma without_sentinel_every_platform_takes_part_witness :
  exists it dt,
    select_best_item [scene "L8" "landsat-8" 2022 8 22 2; scene "L9" "landsat-9" 2022 8 30 2]
      "2022-08-31" (-7.5)%float 107.5%float
    = Ok (best it (platform it) (strftime (datetime it))) /\
    In it [scene "L8" "landsat-8" 2022 8 22 2; scene "L9" "landsat-9" 2022 8 30 2] /\
    contains_sample_point (-7.5)%float 107.5%float (item_record it) = true /\
    time_diff "2022-08-31" (item_record it) = Ok dt /\
    (forall c dc,
        In c [scene "L8" "landsat-8" 2022 8 22 2; scene "L9" "landsat-9" 2022 8 30 2] ->
        contains_sample_point (-7.5)%float 107.5%float (item_record c) = true ->
        time_diff "2022-08-31" (item_record c) = Ok dc -> dt <= dc).
Proof.
  apply (without_sentinel_every_platform_takes_part
           [scene "L8" "landsat-8" 2022 8 22 2; scene "L9" "landsat-9" 2022 8 30 2]
           "2022-08-31" (-7.5)%float 107.5%float).
  - intros c [<- | [<- | []]] _; reflexivity.
  - exists (scene "L8" "landsat-8" 2022 8 22 2). split; [left; reflexivity | reflexivity].
  - intros c [<- | [<- | []]] _; eexists; vm_compute; reflexivity.
Defined.

(** X3: When no candidate that contains the point is acquired after the sample
    date, the scene returned is the closest in time of its pool: the
    distance in time of no candidate of the pool is smaller. *)
Theorem closest_scene_when_none_is_later
    (items : list item) (date : string) (latitude longitude : float)
    (it : item) (p d : string) :
  select_best_item items date latitude longitude = Ok (best it p d) ->
  (forall c dc, In c items ->
                contains_sample_point latitude longitude (item_record c) = true ->
                time_diff date (item_record c) = Ok dc -> 0 <= dc) ->
  exists dt,
    time_diff date (item_record it) = Ok dt /\
    forall c dc, in_the_pool items latitude longitude c ->
                 time_diff date (item_record c) = Ok dc -> Z.abs dt <= Z.abs dc.
Proof.
  intros Sel Before.
  destruct (select_best_item_sound _ _ _ _ _ _ _ Sel)
    as ((I & C & S) & _ & _ & dt & T & Least).
  exists dt. split; [exact T |].
  intros c dc Pc Tc. pose proof (Least c dc Pc Tc).
  pose proof (Before it dt I C T).
  destruct Pc as (Ic & Cc & _). pose proof (Before c dc Ic Cc Tc). lia.
Qed.

(** A Sentinel scene ten days before the sample date and one a day before. *)
Lemma closest_scene_when_none_is_later_witness :
  exists dt,
    time_diff "2022-08-31" (item_record (scene "B" "Sentinel-2B" 2022 8 30 2)) = Ok dt /\
    forall c dc,
      in_the_pool [scene "A" "Sentinel-2A" 2022 8 21 2; scene "B" "Sentinel-2B" 2022 8 30 2]
        (-7.5)%float 107.5%float c ->
      time_diff "2022-08-31" (item_record c) = Ok dc -> Z.abs dt <= Z.abs dc.
Proof.
  apply (closest_scene_when_none_is_later
           [scene "A" "Sentinel-2A" 2022 8 21 2; scene "B" "Sentinel-2B" 2022 8 30 2]
           "2022-08-31" (-7.5)%float 107.5%float
           (scene "B" "Sentinel-2B" 2022 8 30 2) "Sentinel-2B" "2022-08-30").
  - vm_compute. reflexivity.
  - intros c dc [<- | [<- | []]] _ T; vm_compute in T; inversion T; lia.
Defined.

(** ** The selector: what does not change its answer *)

Lemma filter_map_filter {A B : Type} (f : B -> bool) (g : A -> B) (l : list A) :
  filter f (map g (filter (fun a => f (g a)) l)) = filter f (map g l).
Proof.
  induction l as [| a l IH]; [reflexivity |]. cbn [filter map].
  destruct (f (g a)) eqn:E; cbn [filter map]; rewrite ?E, IH; reflexivity.
Qed.

Lemma map_filter_comm {A B : Type} (f : B -> bool) (g : A -> B) (l : list A) :
  map g (filter (fun a => f (g a)) l) = filter f (map g l).
Proof.
  induction l as [| a l IH]; [reflexivity |]. cbn [filter map].
  destruct (f (g a)); cbn [map]; rewrite IH; reflexivity.
Qed.

Lemma filter_comm {A : Type} (f g : A -> bool) (l : list A) :
  filter f (filter g l) = filter g (filter f l).
Proof.
  induction l as [| a l IH]; [reflexivity |]. cbn [filter].
  destruct (f a) eqn:F, (g a) eqn:G; cbn [filter]; rewrite ?F, ?G, IH; reflexivity.
Qed.

Lemma filter_idem {A : Type} (f : A -> bool) (l : list A) :
  filter f (filter f l) = filter f l.
Proof.
  induction l as [| a l IH]; [reflexivity |]. cbn [filter].
  destruct (f a) eqn:F; cbn [filter]; rewrite ?F, IH; reflexivity.
Qed.

(** X4: A candidate that does not contain the point never changes the answer:
    when some candidate contains the point, the selector answers on the whole
    list what it answers on the candidates that contain the point. *)
Theorem candidates_outside_never_matter
    (items : list item) (date : string) (latitude longitude : float) :
  (exists c, In c items /\
             contains_sample_point latitude longitude (item_record c) = true) ->
  select_best_item items date latitude longitude
  = select_best_item
      (filter (fun c => contains_sample_point latitude longitude (item_record c)) items)
      date latitude longitude.
Proof.
  intros (c & Ic & Cc).
  assert (H1 : items <> []) by (intros ->; destruct Ic).
  assert (H2 : filter (fun c => contains_sample_point latitude longitude (item_record c)) items
               <> []).
  { intros N.
    assert (I : In c (filter (fun c => contains_sample_point latitude longitude (item_record c))
                        items)) by (apply filter_In; split; assumption).
    rewrite N in I. destruct I. }
  rewrite (select_best_item_unfold items) by exact H1.
  rewrite (select_best_item_unfold (filter _ items)) by exact H2.
  rewrite (filter_map_filter (contains_sample_point latitude longitude) item_record items).
  reflexivity.
Qed.

(** A Landsat scene of the sample day over Sulawesi, far from the point, and
    a Sentinel scene over the point. *)
Lemma candidates_outside_never_matter_witness :
  select_best_item
    [ mkitem "far" (mkdatetime (mkdate 2022 8 31) 2 30 0 0) "landsat-8"
        (mkbbox 120%float (-6)%float 121%float (-5)%float);
      scene "S" "Sentinel-2A" 2022 8 21 2 ]
    "2022-08-31" (-7.5)%float 107.5%float
  = select_best_item [scene "S" "Sentinel-2A" 2022 8 21 2]
      "2022-08-31" (-7.5)%float 107.5%float.
Proof.
  apply (candidates_outside_never_matter
           [ mkitem "far" (mkdatetime (mkdate 2022 8 31) 2 30 0 0) "landsat-8"
               (mkbbox 120%float (-6)%float 121%float (-5)%float);
             scene "S" "Sentinel-2A" 2022 8 21 2 ]
           "2022-08-31" (-7.5)%float 107.5%float).
  exists (scene "S" "Sentinel-2A" 2022 8 21 2). split; [right; left; reflexivity | reflexivity].
Defined.

(** The column [time_diff] of a part of the frame is that part of the
    column. *)
Lemma add_time_diff_filter (date : string) (f : row -> bool) (rs : list row)
    (xs : list (row * Z)) :
  add_time_diff date rs = Ok xs ->
  add_time_diff date (filter f rs) = Ok (filter (fun x => f (fst x)) xs).
Proof.
  unfold add_time_diff.
  destruct (to_datetime date) as [t |]; cbn [bind]; [| discriminate].
  revert xs. induction rs as [| r rs IH]; intros xs H.
  - cbn in H. inversion H. reflexivity.
  - cbn [map_result] in H.
    destruct (to_datetime (row_datetime r)) as [u |] eqn:U; cbn [bind] in H; [| discriminate H].
    destruct (map_result (fun r => to_datetime (row_datetime r)) rs) as [stamps |] eqn:S;
      cbn [bind] in H; [| discriminate H].
    cbn [map_result] in H.
    destruct (sub_timestamps t u) as [d |] eqn:D; cbn [bind] in H; [| discriminate H].
    destruct (map_result (sub_timestamps t) stamps) as [diffs |] eqn:Ds;
      cbn [bind] in H; [| discriminate H].
    inversion H; subst xs. clear H. cbn [combine filter fst].
    specialize (IH (combine rs diffs)). cbn [bind] in IH. rewrite Ds in IH.
    cbn [bind] in IH. specialize (IH eq_refl).
    destruct (f r).
    + cbn [map_result]. rewrite U. cbn [bind].
      destruct (map_result (fun r => to_datetime (row_datetime r)) (filter f rs))
        as [stamps' |]; cbn [bind] in IH |- *; [| discriminate IH].
      cbn [map_result]. rewrite D. cbn [bind].
      destruct (map_result (sub_timestamps t) stamps') as [diffs' |];
        cbn [bind] in IH |- *; [| discriminate IH].
      inversion IH as [E]. cbn [combine]. rewrite E. reflexivity.
    + exact IH.
Qed.

(** X5: When a Sentinel candidate contains the point, the candidates of the
    other platforms never change a scene that is returned: the selector
    returns the same on the Sentinel candidates alone. *)
Theorem other_platforms_never_change_the_answer
    (items : list item) (date : string) (latitude longitude : float) (sel : selection) :
  (exists c, In c items /\
             contains_sample_point latitude longitude (item_record c) = true /\
             sentinel (item_record c) = true) ->
  select_best_item items date latitude longitude = Ok sel ->
  select_best_item (filter (fun c => sentinel (item_record c)) items) date latitude longitude
  = Ok sel.
Proof.
  intros (c & Ic & Cc & Sc) Sel.
  assert (H1 : items <> []) by (intros ->; destruct Ic).
  assert (Ic' : In c (filter (fun c => sentinel (item_record c)) items))
    by (apply filter_In; split; assumption).
  assert (H2 : filter (fun c => sentinel (item_record c)) items <> [])
    by (intros N; rewrite N in Ic'; destruct Ic').
  rewrite select_best_item_unfold in Sel by exact H1.
  rewrite select_best_item_unfold by exact H2.
  rewrite (map_filter_comm sentinel item_record items), filter_comm.
  set (rs := filter (contains_sample_point latitude longitude) (map item_record items)) in *.
  assert (Ir : In (item_record c) rs)
    by (apply filter_In; split; [apply in_map; exact Ic | exact Cc]).
  assert (Irs : In (item_record c) (filter sentinel rs))
    by (apply filter_In; split; assumption).
  destruct rs as [| r0 rs0] eqn:Ers; [destruct Ir |]. rewrite <- Ers in *.
  destruct (add_time_diff date rs) as [xs |] eqn:Hxs; cbn [bind] in Sel; [| discriminate Sel].
  pose proof (add_time_diff_filter date sentinel rs xs Hxs) as Hf.
  destruct (filter sentinel rs) as [| r1 rs1] eqn:Efs; [destruct Irs |]. rewrite <- Efs in *.
  rewrite Hf. cbn [bind].
  assert (Any : existsb (fun x => sentinel (fst x)) xs = true).
  { destruct (in_frame _ _ _ Hxs) as [_ Fr]. destruct (Fr _ Ir) as [d Hd].
    apply existsb_exists. exists (item_record c, d). split; [exact Hd | exact Sc]. }
  assert (E : sentinel_if_any (filter (fun x => sentinel (fst x)) xs) = sentinel_if_any xs).
  { unfold sentinel_if_any. rewrite Any.
    destruct (existsb _ (filter _ xs)); [apply filter_idem | reflexivity]. }
  rewrite E. exact Sel.
Qed.

Lemma other_platforms_never_change_the_answer_witness :
  select_best_item
    (filter (fun c => sentinel (item_record c))
       [scene "L" "landsat-8" 2022 8 31 2; scene "S" "Sentinel-2A" 2022 8 21 2])
    "2022-08-31" (-7.5)%float 107.5%float
  = Ok (best (scene "S" "Sentinel-2A" 2022 8 21 2) "Sentinel-2A" "2022-08-21").
Proof.
  apply (other_platforms_never_change_the_answer
           [scene "L" "landsat-8" 2022 8 31 2; scene "S" "Sentinel-2A" 2022 8 21 2]
           "2022-08-31" (-7.5)%float 107.5%float).
  - exists (scene "S" "Sentinel-2A" 2022 8 21 2).
    split; [right; left; reflexivity | split; reflexivity].
  - vm_compute. reflexivity.
Defined.

Lemma in_the_pool_same_candidates (items items' : list item) (latitude longitude : float)
    (c : item) :
  (forall c, In c items <-> In c items') ->
  in_the_pool items latitude longitude c -> in_the_pool items' latitude longitude c.
Proof.
  intros Same (I & C & S). split; [apply Same; exact I | split; [exact C |]].
  intros (s & Is & Cs & Ss). apply S. exists s. split; [apply Same; exact Is | split; assumption].
Qed.

(** X6: The order of the candidates in the list, and how many times one occurs,
    does not matter when the candidates that contain the point have different
    [time_diff]: on two lists with the same candidates the selector returns
    the same scene. *)
Theorem order_of_candidates_does_not_matter
    (items items' : list item) (date : string) (latitude longitude : float)
    (it : item) (p d : string) :
  (forall c, In c items <-> In c items') ->
  (forall c c', In c items -> In c' items ->
                contains_sample_point latitude longitude (item_record c) = true ->
                contains_sample_point latitude longitude (item_record c') = true ->
                time_diff date (item_record c) = time_diff date (item_record c') ->
                c = c') ->
  select_best_item items date latitude longitude = Ok (best it p d) ->
  select_best_item items' date latitude longitude = Ok (best it p d).
Proof.
  intros Same Distinct Sel.
  assert (Same' : forall c, In c items' <-> In c items) by (intros c; symmetry; apply Same).
  destruct (select_best_item_sound _ _ _ _ _ _ _ Sel) as (Pit & Ep & Ed & dt & T & Least).
  destruct (select_best_item_best _ _ _ _ _ _ _ Sel)
    as (xs & _ & _ & _ & Hxs & _).
  destruct (in_frame _ _ _ Hxs) as [Fx Fr].
  set (rs' := filter (contains_sample_point latitude longitude) (map item_record items')).
  assert (Hne : rs' <> []).
  { destruct Pit as (I & C & _). intros N.
    assert (Ir : In (item_record it) rs')
      by (apply filter_In; split; [apply in_map; apply Same; exact I | exact C]).
    rewrite N in Ir. destruct Ir. }
  assert (Hd : Forall (fun r => exists d, time_diff date r = Ok d) rs').
  { apply Forall_forall. intros r Hr. apply filter_item_records in Hr.
    destruct Hr as (C & I & E).
    assert (Ir : In r (filter (contains_sample_point latitude longitude)
                         (map item_record items))).
    { apply filter_In. split; [| exact C]. rewrite E. apply in_map. apply Same'. exact I. }
    destruct (Fr _ Ir) as [d0 Hd0]. destruct (Fx _ Hd0) as [_ T0]. eauto. }
  destruct (select_best_item_total items' date latitude longitude Hne Hd)
    as (it' & p' & d' & Sel').
  destruct (select_best_item_sound _ _ _ _ _ _ _ Sel')
    as (Pit' & Ep' & Ed' & dt' & T' & Least').
  pose proof (Least it' dt' (in_the_pool_same_candidates _ _ _ _ _ Same' Pit') T') as L1.
  pose proof (Least' it dt (in_the_pool_same_candidates _ _ _ _ _ Same Pit) T) as L2.
  assert (E : it = it').
  { destruct Pit as (I & C & _). destruct Pit' as (I' & C' & _).
    apply Distinct; [exact I | apply Same'; exact I' | exact C | exact C' |].
    rewrite T, T'. f_equal. lia. }
  subst it' p d p' d'. exact Sel'.
Qed.

Lemma order_of_candidates_does_not_matter_witness :
  select_best_item
    [scene "B" "Sentinel-2B" 2022 8 30 2; scene "A" "Sentinel-2A" 2022 8 21 2;
     scene "B" "Sentinel-2B" 2022 8 30 2]
    "2022-08-31" (-7.5)%float 107.5%float
  = Ok (best (scene "B" "Sentinel-2B" 2022 8 30 2) "Sentinel-2B" "2022-08-30").
Proof.
  apply (order_of_candidates_does_not_matter
           [scene "A" "Sentinel-2A" 2022 8 21 2; scene "B" "Sentinel-2B" 2022 8 30 2]
           [scene "B" "Sentinel-2B" 2022 8 30 2; scene "A" "Sentinel-2A" 2022 8 21 2;
            scene "B" "Sentinel-2B" 2022 8 30 2]
           "2022-08-31" (-7.5)%float 107.5%float).
  - intros c. cbn [In]. tauto.
  - intros c c' [<- | [<- | []]] [<- | [<- | []]] _ _ T;
      try reflexivity; vm_compute in T; discriminate T.
  - vm_compute. reflexivity.
Defined.

(** ** The selector: dates *)

(** X8: [time_diff] counts calendar days: for a sample date [D] and a scene
    acquired on the day [A], at any time of the day, both between 1677-09-22
    and 2262-04-11 and at most 106751 days apart, it is the number of days
    from [A] to [D], in nanoseconds. *)
Theorem time_diff_counts_calendar_days (D : calendar_date) (it : item) :
  valid_date D = true ->
  valid_date (dt_date (datetime it)) = true ->
  -106751 <= ordinal D - epoch_ordinal <= 106751 ->
  -106751 <= ordinal (dt_date (datetime it)) - epoch_ordinal <= 106751 ->
  -106751 <= ordinal D - ordinal (dt_date (datetime it)) <= 106751 ->
  time_diff (strftime_ymd D) (item_record it)
  = Ok ((ordinal D - ordinal (dt_date (datetime it))) * ns_per_day).
Proof.
  intros VD VA BD BA BDA. unfold time_diff.
  rewrite (to_datetime_strftime_ymd D VD BD). cbn [bind].
  cbn [item_record row_datetime]. unfold strftime.
  rewrite (to_datetime_strftime_ymd _ VA BA). cbn [bind].
  unfold sub_timestamps.
  replace ((ordinal D - epoch_ordinal) * ns_per_day
           - (ordinal (dt_date (datetime it)) - epoch_ordinal) * ns_per_day)
    with ((ordinal D - ordinal (dt_date (datetime it))) * ns_per_day) by lia.
  apply in_int64_days in BDA. rewrite BDA. reflexivity.
Qed.

(** From 28 February to 1 March 2024 there are two days. *)
Lemma time_diff_counts_calendar_days_witness :
  time_diff (strftime_ymd (mkdate 2024 3 1)) (item_record (scene "S" "Sentinel-2A" 2024 2 28 23))
  = Ok ((ordinal (mkdate 2024 3 1) - ordinal (mkdate 2024 2 28)) * ns_per_day) /\
  ordinal (mkdate 2024 3 1) - ordinal (mkdate 2024 2 28) = 2.
Proof.
  split; [| reflexivity].
  apply (time_diff_counts_calendar_days (mkdate 2024 3 1) (scene "S" "Sentinel-2A" 2024 2 28 23));
    try reflexivity; vm_compute; split; discriminate.
Defined.

(** ** The date range: any window *)

Lemma get_date_range_of_days (D : calendar_date) (W : Z) :
  valid_date D = true ->
  -106751 <= W <= 106751 ->
  -106751 <= ordinal D - epoch_ordinal <= 106751 ->
  -106751 <= ordinal D - W - epoch_ordinal <= 106751 ->
  get_date_range (strftime_ymd D) W
  = Ok (dateT_interval (date_of_ordinal (ordinal D - W)) D).
Proof.
  intros V BW BD BS. unfold get_date_range.
  rewrite (to_datetime_strftime_ymd D V BD). cbn [bind]. unfold sub_days.
  apply in_int64_days in BW. rewrite BW.
  replace ((ordinal D - epoch_ordinal) * ns_per_day - W * ns_per_day)
    with ((ordinal D - W - epoch_ordinal) * ns_per_day) by lia.
  pose proof BS as BS'. apply in_int64_days in BS'. rewrite BS'. cbn [bind].
  unfold strftime_ymdT. rewrite !timestamp_date_days.
  replace (ordinal D - W - epoch_ordinal + epoch_ordinal) with (ordinal D - W) by lia.
  replace (ordinal D - epoch_ordinal + epoch_ordinal) with (ordinal D) by lia.
  rewrite (date_of_ordinal_ordinal D V).
  unfold dateT_interval. rewrite !append_assoc. reflexivity.
Qed.

(** X9: The sign of the window is not checked: with a negative window the
    first date of the range is the day [-W] days after the sample date, so
    the range printed runs backwards, from a later day to an earlier one. *)
Theorem negative_window_reverses_the_range (D : calendar_date) (W : Z) :
  valid_date D = true ->
  -106751 <= W < 0 ->
  ordinal (mkdate 1677 9 22) <= ordinal D ->
  ordinal D - W <= ordinal (mkdate 2262 4 11) ->
  exists S : calendar_date,
    get_date_range (strftime_ymd D) W = Ok (dateT_interval S D) /\
    valid_date S = true /\
    ordinal S = ordinal D - W /\
    ordinal D < ordinal S.
Proof.
  intros V HW Hlo Hhi.
  change (ordinal (mkdate 1677 9 22)) with 612412 in Hlo.
  change (ordinal (mkdate 2262 4 11)) with 825914 in Hhi.
  exists (date_of_ordinal (ordinal D - W)).
  assert (BD : -106751 <= ordinal D - epoch_ordinal <= 106751) by (unfold epoch_ordinal; lia).
  assert (BS : -106751 <= ordinal D - W - epoch_ordinal <= 106751)
    by (unfold epoch_ordinal; lia).
  destruct (ordinal_date_of_ordinal (ordinal D - W)) as (O & _).
  split; [apply get_date_range_of_days; [exact V | lia | exact BD | exact BS] |].
  split; [apply valid_date_of_ordinal; exact BS |].
  split; [exact O | rewrite O; lia].
Qed.

Lemma negative_window_reverses_the_range_witness :
  (exists S, get_date_range (strftime_ymd (mkdate 2022 8 31)) (-30)
             = Ok (dateT_interval S (mkdate 2022 8 31)) /\
             valid_date S = true /\
             ordinal S = ordinal (mkdate 2022 8 31) - -30 /\
             ordinal (mkdate 2022 8 31) < ordinal S) /\
  get_date_range "2022-08-31" (-30) = Ok "2022-09-30T/2022-08-31T".
Proof.
  split; [| reflexivity].
  apply (negative_window_reverses_the_range (mkdate 2022 8 31) (-30)).
  - reflexivity.
  - lia.
  - vm_compute. discriminate.
  - vm_compute. discriminate.
Defined.

(** ** The Sentinel test *)

Lemma prefix_spec (p s : string) :
  String.prefix p s = true <-> exists b, s = (p ++ b)%string.
Proof.
  revert s. induction p as [| c p IH]; intros s.
  - split; [intros _; exists s; reflexivity | intros _; destruct s; reflexivity].
  - destruct s as [| c' s]; cbn [String.prefix append].
    + split; [discriminate | intros [b E]; discriminate E].
    + destruct (Ascii.ascii_dec c c') as [<- | N].
      * rewrite IH. split; intros [b E]; exists b; [rewrite E; reflexivity |].
        inversion E. reflexivity.
      * split; [discriminate | intros [b E]; inversion E; subst; contradiction].
Qed.

Lemma contains_spec (s pat : string) :
  contains s pat = true <-> exists a b, s = (a ++ pat ++ b)%string.
Proof.
  induction s as [| c s IH].
  - cbn [contains]. rewrite orb_false_r, prefix_spec. split.
    + intros [b E]. exists EmptyString, b. exact E.
    + intros (a & b & E). destruct a as [| x a]; [exists b; exact E | discriminate E].
  - cbn [contains]. rewrite orb_true_iff, prefix_spec, IH. split.
    + intros [[b E] | (a & b & E)].
      * exists EmptyString, b. exact E.
      * exists (String c a), b. cbn. rewrite E. reflexivity.
    + intros (a & b & E). destruct a as [| x a].
      * left. exists b. exact E.
      * right. inversion E. exists a, b. reflexivity.
Qed.

(** X10: A record counts as a Sentinel record exactly when its platform name,
    with the ASCII capitals made small, reads some text, then [sentinel],
    then some text. *)
Theorem sentinel_means_substring (r : row) :
  sentinel r = true <->
  exists a b, lower (row_platform r) = (a ++ "sentinel" ++ b)%string.
Proof.
  unfold sentinel. apply contains_spec.
Qed.

(** ** The driver and the selector together *)

Section DriverAndSelector.

Context {image : Type}.
Variable w : world image.

(** X11: The box of [get_bounding_box] has the layout the selector reads a
    footprint in: when the destination to the south has a smaller latitude
    than the centre, the one to the north a larger one, the one to the west a
    smaller longitude and the one to the east a larger one, a scene whose
    footprint is the box returned strictly contains the centre. *)
Theorem bounding_box_contains_its_centre
    (latitude longitude : float) (meter_buffer : Z) (s wt n e : float * float) :
  destination w meter_buffer (latitude, longitude) 180 = Ok s ->
  destination w meter_buffer (latitude, longitude) 270 = Ok wt ->
  destination w meter_buffer (latitude, longitude) 0 = Ok n ->
  destination w meter_buffer (latitude, longitude) 90 = Ok e ->
  PrimFloat.ltb (fst s) latitude = true ->
  PrimFloat.ltb latitude (fst n) = true ->
  PrimFloat.ltb (snd wt) longitude = true ->
  PrimFloat.ltb longitude (snd e) = true ->
  exists b,
    get_bounding_box w latitude longitude meter_buffer = Ok b /\
    forall id dt plat,
      contains_sample_point latitude longitude (item_record (mkitem id dt plat b)) = true.
Proof.
  intros S W N E Ls Ln Lw Le.
  exists (mkbbox (snd wt) (fst s) (snd e) (fst n)). split.
  - unfold get_bounding_box. rewrite S, W, N, E. reflexivity.
  - intros id dt plat. unfold contains_sample_point.
    cbn [item_record item_bbox min_lat max_lat min_long max_long bbox_0 bbox_1 bbox_2 bbox_3].
    rewrite Ls, Ln, Lw, Le. reflexivity.
Qed.

(** X12: When the search of a location returns scenes and the body of the loop
    ends without an exception, the names [best_item] and [item_platform]
    hold a scene of that search that strictly contains the location, with
    its own platform name; the image is made from that scene and the box of
    500 metres, by the Sentinel cropper when the platform name has
    [sentinel] in it and by the Landsat cropper (with its normalization)
    otherwise; and the file, when [cv2.imwrite] reports it written, is that
    image under the name of the location. *)
Theorem location_with_scenes_uses_one_of_them
    (r : location) (bound bound' : option selection) (b1 : bbox) (dr : string)
    (items : list item) (written : files) :
  get_bounding_box w (latitude r) (longitude r) 50000 = Ok b1 ->
  get_date_range (date r) 30 = Ok dr ->
  search w ["sentinel-2-l2a"; "landsat-c2-l2"] b1 dr = Ok items ->
  items <> [] ->
  process_location w r bound = Ok (bound', written) ->
  exists it b2 img img' ok,
    In it items /\
    contains_sample_point (latitude r) (longitude r) (item_record it) = true /\
    bound' = Some (best it (platform it) (strftime (datetime it))) /\
    get_bounding_box w (latitude r) (longitude r) 500 = Ok b2 /\
    (if sentinel (item_record it)
     then crop_sentinel_image w it b2 else crop_landsat_image w it b2) = Ok img /\
    transpose w img = Ok img' /\
    imwrite w (image_array_pth r) img' = Ok ok /\
    written = (if ok then [(image_array_pth r, img')] else []).
Proof.
  intros B1 DR S Hne P. unfold process_location in P.
  rewrite B1 in P. cbn [bind] in P. rewrite DR in P. cbn [bind] in P.
  rewrite S in P. cbn [bind] in P.
  destruct (Z.eqb_spec (Z.of_nat (List.length items)) 0) as [E | _].
  { destruct items; [contradiction | cbn [List.length] in E; lia]. }
  destruct (select_best_item items (date r) (latitude r) (longitude r)) as [sel |] eqn:Sel;
    cbn [bind] in P; [| discriminate P].
  destruct (get_bounding_box w (latitude r) (longitude r) 500) as [b2 |];
    cbn [bind] in P; [| discriminate P].
  destruct sel as [| it p d]; [discriminate P |].
  destruct (select_best_item_sound _ _ _ _ _ _ _ Sel) as ((I & C & _) & -> & -> & _).
  change (contains (lower (platform it)) "sentinel") with (sentinel (item_record it)) in P.
  destruct (if sentinel (item_record it)
            then crop_sentinel_image w it b2 else crop_landsat_image w it b2)
    as [img |] eqn:Cr; cbn [bind] in P; [| discriminate P].
  destruct (transpose w img) as [img' |] eqn:T; cbn [bind] in P; [| discriminate P].
  destruct (imwrite w (image_array_pth r) img') as [ok |] eqn:Wr; cbn [bind] in P;
    [| discriminate P].
  inversion P; subst. exists it, b2, img, img', ok. repeat split; assumption.
Qed.

Lemma for_each_row_file_names (rs : list location) (bound : option selection)
    (out out' : files) :
  (forall path img, imwrite w path img <> Ok false) ->
  for_each_row w rs bound out = (out', Ok tt) ->
  map fst out' = (map fst out ++ map image_array_pth rs)%list.
Proof.
  intros Wr. revert bound out. induction rs as [| r rs IH]; intros bound out H.
  - cbn in H. inversion H. cbn. symmetry. apply app_nil_r.
  - cbn [for_each_row] in H.
    destruct (process_location w r bound) as [[bound1 written] |] eqn:P; [| discriminate H].
    rewrite (IH _ _ H). rewrite map_app, <- app_assoc. f_equal. cbn [map].
    assert (Ew : map fst written = [image_array_pth r]).
    { unfold process_location in P.
      repeat match type of P with
             | bind ?c _ = Ok _ => destruct c eqn:?; cbn [bind] in P; [| discriminate P]
             | match ?c with _ => _ end = Ok _ => destruct c eqn:?; try discriminate P
             end.
      inversion P; subst.
      match goal with
      | H : imwrite w _ _ = Ok ?b |- _ => destruct b; [reflexivity | destruct (Wr _ _ H)]
      end. }
    rewrite Ew. reflexivity.
Qed.

(** X13: A run that ends without an exception, with every [cv2.imwrite] reporting
    its file written, has left exactly one file for each location, in the
    order of the list and under the name of the location: also for a location
    whose search found nothing. *)
Theorem clean_run_leaves_one_file_per_location (out : files) :
  (forall path img, imwrite w path img <> Ok false) ->
  main w = (out, Ok tt) ->
  map fst out = map image_array_pth d_metadata.
Proof.
  intros Wr M. unfold main in M.
  destruct (makedirs w IMAGE_ARRAY_DIR); [| inversion M].
  destruct (client_open w); [| inversion M].
  apply (for_each_row_file_names d_metadata None [] out Wr M).
Qed.

End DriverAndSelector.

(** The first location, in the world of the examples. *)
Lemma bounding_box_contains_its_centre_witness :
  exists b,
    get_bounding_box (toy_world empty_catalog) (latitude (row_at 0)) (longitude (row_at 0)) 50000
    = Ok b /\
    forall id dt plat,
      contains_sample_point (latitude (row_at 0)) (longitude (row_at 0))
        (item_record (mkitem id dt plat b)) = true.
Proof.
  eapply (bounding_box_contains_its_centre (toy_world empty_catalog)
            (latitude (row_at 0)) (longitude (row_at 0)) 50000); reflexivity.
Defined.

Lemma location_with_scenes_uses_one_of_them_witness :
  exists it b2 img img' ok,
    In it [scene "S" "Sentinel-2A" 2022 8 30 2] /\
    contains_sample_point (latitude (row_at 0)) (longitude (row_at 0)) (item_record it) = true /\
    Some (best (scene "S" "Sentinel-2A" 2022 8 30 2) "Sentinel-2A" "2022-08-30")
    = Some (best it (platform it) (strftime (datetime it))) /\
    get_bounding_box (toy_world jawa_catalog) (latitude (row_at 0)) (longitude (row_at 0)) 500
    = Ok b2 /\
    (if sentinel (item_record it)
     then crop_sentinel_image (toy_world jawa_catalog) it b2
     else crop_landsat_image (toy_world jawa_catalog) it b2) = Ok img /\
    transpose (toy_world jawa_catalog) img = Ok img' /\
    imwrite (toy_world jawa_catalog) (image_array_pth (row_at 0)) img' = Ok ok /\
    [(image_array_pth (row_at 0), "visual of S")]
    = (if ok then [(image_array_pth (row_at 0), img')] else []).
Proof.
  eapply (location_with_scenes_uses_one_of_them (toy_world jawa_catalog) (row_at 0) None).
  - reflexivity.
  - reflexivity.
  - reflexivity.
  - discriminate.
  - vm_compute. reflexivity.
Defined.

Lemma clean_run_leaves_one_file_per_location_witness :
  map fst (map (fun r => (image_array_pth r, "visual of S")) d_metadata)
  = map image_array_pth d_metadata.
Proof.
  apply (clean_run_leaves_one_file_per_location (toy_world jawa_catalog)).
  - intros path img. discriminate.
  - vm_compute. reflexivity.
Defined.

(** The catalog has a scene, over Sulawesi, for the first location, on
    Java: the run ends there with [AttributeError]. *)
Lemma no_match_raises_in_the_driver_witness :
  process_location (toy_world sulawesi_catalog) (row_at 0) None = Raise AttributeError /\
  main (toy_world sulawesi_catalog) = ([], Raise AttributeError).
Proof.
  split.
  - eapply (no_match_raises_in_the_driver (toy_world sulawesi_catalog) (row_at 0) None).
    + reflexivity.
    + reflexivity.
    + reflexivity.
    + discriminate.
    + reflexivity.
    + reflexivity.
  - vm_compute. reflexivity.
Defined.

(** ** The file names *)

Lemma with_uid_lower_bound (l : list (float * float * string)) (n : Z) (r : location) :
  In r (with_uid l n) -> n <= uid r.
Proof.
  revert n. induction l as [| [[la lo] isl] l IH]; intros n H; [destruct H |].
  cbn [with_uid] in H. destruct H as [<- | H]; [cbn; lia |].
  specialize (IH _ H). lia.
Qed.

(** X15: The records of [d_metadata] are numbered from 0 by [uid], and the
    number is part of the file name: whatever the coordinates and the
    islands of a list of locations, equal ones too, no two of its records
    have the same file name. *)
Theorem file_names_do_not_collide (l : list (float * float * string)) (n : Z) :
  NoDup (map image_array_pth (with_uid l n)).
Proof.
  revert n. induction l as [| [[la lo] isl] l IH]; intros n; [constructor |].
  cbn [with_uid map]. constructor; [| apply IH].
  intros H. apply in_map_iff in H. destruct H as (r & E & Ir).
  apply with_uid_lower_bound in Ir.
  unfold image_array_pth in E. cbn [island latitude longitude uid] in E.
  inversion E. lia.
Qed.
